(** * leaflet-charme: the CHARMe annotation widget for Leaflet maps

    A shallow embedding of the repository's JavaScript:

    - [charme.js]: the first page script, with [getQuery] (viewport query),
      [getLocationString] and [getTurtle];
    - the [CharmeAnnotator] class (constructor, [_init], [setDatasetDetails],
      [charmeLogout], [toggleAnnotations], [isAnnotationsOn]) with its private
      helpers [_getQuery], [_getLocationString] and [_getTurtle];
    - the demo page script with [selectDataset].

    JavaScript strings are Rocq strings holding the generalized UTF-8 of the
    text, [undefined] is [None], exceptions are an explicit outcome, and the
    object fields, the pending [fetch] promises and the fired events are
    threaded through a state-and-exception monad. *)

From Stdlib Require Import String Ascii List ZArith Lia Bool Arith.
From Stdlib Require Import DecimalString.
Import ListNotations.

Open Scope string_scope.

(** ** JavaScript values used by the widget *)

Module JS.

(** The exceptions the modelled code can raise. *)
Inductive error : Type :=
| ReferenceError (name : string)
| TypeError (what : string)
| URIError (what : string)
| NotFoundError (what : string).     (* a [DOMException] *)

(** Completion of an expression: a value or a thrown exception. *)
Inductive outcome (A : Type) : Type :=
| Normal (a : A)
| Thrown (e : error).
Arguments Normal {A} a.
Arguments Thrown {A} e.

Definition obind {A B} (o : outcome A) (k : A -> outcome B) : outcome B :=
  match o with
  | Normal a => k a
  | Thrown e => Thrown e
  end.

(** A value that is a string or [undefined]. *)
Definition value : Type := option string.
Definition undefined : value := None.

(** String concatenation converts [undefined] to the text "undefined". *)
Definition ToString (v : value) : string :=
  match v with
  | Some s => s
  | None => "undefined"
  end.

(** [undefined] and the empty string are falsy. *)
Definition truthy (v : value) : bool :=
  match v with
  | Some s => negb (s =? "")
  | None => false
  end.

(** [a[i]] on an array: [undefined] out of range, also for a negative [i]. *)
Definition elementAt {A} (a : list A) (i : Z) : option A :=
  if (i <? 0)%Z then None else nth_error a (Z.to_nat i).

(** Reading a property of [a[i]]; a [TypeError] when [a[i]] is undefined. *)
Definition prop_of_index {A B} (a : list A) (i : Z) (prop : A -> B)
  : outcome B :=
  match elementAt a i with
  | Some x => Normal (prop x)
  | None => Thrown (TypeError "Cannot read properties of undefined")
  end.

(** The double quote character, as a one-character string. *)
Definition dq : string := String (ascii_of_nat 34) EmptyString.

(** [s.includes(needle)]: [needle] occurs somewhere in [s]. *)
Fixpoint includes (s needle : string) : bool :=
  prefix needle s
  || match s with
     | EmptyString => false
     | String _ rest => includes rest needle
     end.

End JS.
Import JS.

Notation "x <-! o ;; k" := (obind o (fun x => k))
  (at level 61, o at next level, right associativity).

(** Numbers reach the text only through [Number::toString]; the widget never
    computes with a coordinate, so the number type stays abstract. *)
Class Number (N : Type) : Type := { numToString : N -> string }.

(** Integers of small magnitude, printed in decimal as [Number::toString]
    prints them; used for the concrete inputs below. *)
#[export] Instance Z_Number : Number Z :=
  { numToString := fun z => NilZero.string_of_int (Z.to_int z) }.

(** ** Leaflet layers *)

Section Layers.
Context {N : Type} `{Number N}.

Record LatLng : Type := mkLatLng { lat : N; lng : N }.

(** What [instanceof] distinguishes: [L.Marker]; [L.Polyline] with its
    subclasses [L.Polygon] and [L.Rectangle]; and any other layer, such as
    [L.Circle]. *)
Inductive Layer : Type :=
| Marker (latlng : LatLng)
| Polyline (latlngs : list LatLng)
| Circle (latlng : LatLng) (radius : N).

(** [latlng['lng'] + ' ' + latlng['lat']] *)
Definition pair_text (p : LatLng) : string :=
  numToString (lng p) ++ " " ++ numToString (lat p).

(** The body of [for (var i = latlngs.length - 1; i >= 0; i--)], shared by
    both encoders; the structural argument is [i + 1]. *)
Fixpoint ring_loop (latlngs : list LatLng) (n : nat) (poly : string)
  : outcome string :=
  match n with
  | O => Normal poly
  | S i =>
      x <-! prop_of_index latlngs (Z.of_nat i) lng ;;
      y <-! prop_of_index latlngs (Z.of_nat i) lat ;;
      ring_loop latlngs i (poly ++ numToString x ++ " " ++ numToString y ++ ", ")
  end.

(** [_getLocationString] of the CharmeAnnotator module.  A layer that is
    neither a marker nor a polyline falls off the end of the function, which
    returns [undefined]. *)
Definition _getLocationString (layer : Layer) : outcome value :=
  match layer with
  | Marker latlng =>
      Normal (Some ("POINT (" ++ numToString (lng latlng) ++ " "
                              ++ numToString (lat latlng) ++ ")"))
  | Polyline latlngs =>
      let len := Z.of_nat (length latlngs) in
      poly <-! ring_loop latlngs (length latlngs) "POLYGON ((" ;;
      x <-! prop_of_index latlngs (len - 1) lng ;;
      y <-! prop_of_index latlngs (len - 1) lat ;;
      Normal (Some (poly ++ numToString x ++ " " ++ numToString y ++ "))"))
  | Circle _ _ => Normal undefined
  end.

(** [getLocationString] of charme.js.  The closing pair takes its longitude
    from [_latlngs[length - 1]] and its latitude from [_latlngs[0]]. *)
Definition getLocationString (layer : Layer) : outcome value :=
  match layer with
  | Marker latlng =>
      Normal (Some ("POINT (" ++ numToString (lng latlng) ++ " "
                              ++ numToString (lat latlng) ++ ")"))
  | Polyline latlngs =>
      let len := Z.of_nat (length latlngs) in
      poly <-! ring_loop latlngs (length latlngs) "POLYGON ((" ;;
      x <-! prop_of_index latlngs (len - 1) lng ;;
      y <-! prop_of_index latlngs 0 lat ;;
      Normal (Some (poly ++ numToString x ++ " " ++ numToString y ++ "))"))
  | Circle _ _ => Normal undefined
  end.

(** The WKT polygon text whose coordinate pairs are [pts], in that order. *)
Definition wkt_polygon (pts : list LatLng) : string :=
  "POLYGON ((" ++ String.concat ", " (map pair_text pts) ++ "))".

End Layers.

Arguments LatLng N : clear implicits.
Arguments Layer N : clear implicits.


(** ** Query builders *)

(** [_getQuery] of the CharmeAnnotator module: all annotations of one dataset
    and variable.  The arguments are the object's [datasetUri] and
    [datasetVar] fields, which are [undefined] until a dataset is selected. *)
Definition _getQuery (datasetUri datasetVariable : value) : string :=
  "PREFIX charme: <http://purl.org/voc/charme#> " ++
  "PREFIX oa: <http://www.w3.org/ns/oa#> " ++
  "PREFIX geo: <http://www.opengis.net/ont/geosparql#> " ++
  "PREFIX geof: <http://www.opengis.net/def/function/geosparql/> " ++
  "PREFIX cnt: <http://www.w3.org/2011/content#> " ++
  "PREFIX foaf: <http://xmlns.com/foaf/0.1/> " ++
  "SELECT ?wkt ?text ?firstname ?surname ?email ?time ?account " ++
  "WHERE { " ++
  "    ?anno oa:hasBody ?body . " ++
  "    ?anno oa:annotatedBy ?authorUri . " ++
  "    ?anno oa:annotatedAt ?time . " ++
  "    ?authorUri foaf:givenName ?firstname . " ++
  "    ?authorUri foaf:familyName ?surname . " ++
  "    ?authorUri foaf:accountName ?account . " ++
  "    ?body cnt:chars ?text . " ++
  "    ?anno oa:hasTarget ?target . " ++
  "    ?target oa:hasSelector ?selector . " ++
  "    ?selector charme:hasSpatialExtent ?sp . " ++
  "    ?sp geo:hasGeometry ?geometry . " ++
  "    ?geometry geo:asWKT ?wkt . " ++
  "    ?datasetUri a charme:dataset . " ++
  "    ?selector charme:hasVariable ?variableUri . " ++
  "    ?variableUri charme:hasInternalName ?variableName . " ++
  "    ?authorUri foaf:mbox ?email . " ++
  "FILTER(?variableName=" ++ dq ++ ToString datasetVariable ++ dq ++ ") . " ++
  "FILTER(str(?datasetUri)=" ++ dq ++ ToString datasetUri ++ dq ++ ") . " ++ "} ".

Section Viewport.
Context {N : Type} `{Number N}.

Record LatLngBounds : Type :=
  mkBounds { _southWest : LatLng N; _northEast : LatLng N }.

(** The Leaflet map, as far as the query reads it. *)
Record LeafletMap : Type := mkMap { getBounds : LatLngBounds }.

(** [getQuery(mapObj)] of charme.js.  The body reads the page global [map]
    (assigned when the document has loaded), not its parameter. *)
Definition getQuery (map : option LeafletMap) (mapObj : option LeafletMap)
  : outcome string :=
  match map with
  | None => Thrown (TypeError "Cannot read properties of undefined")
  | Some map =>
      let bounds := getBounds map in
      let maxx := numToString (lng (_northEast bounds)) in
      let maxy := numToString (lat (_northEast bounds)) in
      let minx := numToString (lng (_southWest bounds)) in
      let miny := numToString (lat (_southWest bounds)) in
      Normal (
        "PREFIX charme: <http://purl.org/voc/charme#> " ++
        "PREFIX oa: <http://www.w3.org/ns/oa#> " ++
        "PREFIX geo: <http://www.opengis.net/ont/geosparql#> " ++
        "PREFIX geof: <http://www.opengis.net/def/function/geosparql/> " ++
        "PREFIX cnt: <http://www.w3.org/2011/content#> " ++
        "PREFIX foaf: <http://xmlns.com/foaf/0.1/> " ++
        "SELECT ?text ?name ?wkt " ++
        "WHERE { " ++
        "    ?anno oa:hasBody ?body . " ++
        "    ?anno oa:annotatedBy ?authorUri . " ++
        "    ?authorUri foaf:name ?name . " ++
        "    ?body cnt:chars ?text . " ++
        "    ?anno oa:hasTarget ?target . " ++
        "    ?target oa:hasSelector ?selector . " ++
        "    ?selector charme:hasSpatialExtent ?sp . " ++
        "    ?sp geo:hasGeometry ?geometry . " ++
        "    ?geometry geo:asWKT ?wkt . " ++
        "    FILTER(geof:sfIntersects(?wkt, " ++ dq ++ "POLYGON((" ++
        minx ++ " " ++ miny ++ "," ++
        minx ++ " " ++ maxy ++ "," ++
        maxx ++ " " ++ maxy ++ "," ++
        maxx ++ " " ++ miny ++ "," ++
        minx ++ " " ++ miny ++
        "))" ++ dq ++ "^^geo:wktLiteral)) " ++
        "} " ++
        "LIMIT 100")
  end.

End Viewport.

Arguments LatLngBounds N : clear implicits.
Arguments LeafletMap N : clear implicits.

(** ** Annotation document builders *)

(** [_getTurtle] of the CharmeAnnotator module.  It has no author parameter:
    the node derives the author from the token of the request. *)
Definition _getTurtle (datasetUri datasetVar location : value)
  (comment : string) : string :=
  "@prefix chnode: <http://localhost/> ." ++
  "@prefix charme: <http://purl.org/voc/charme#> ." ++
  "@prefix oa: <http://www.w3.org/ns/oa#> ." ++
  "@prefix prov: <http://www.w3.org/ns/prov#> ." ++
  "@prefix xsd: <http://www.w3.org/2001/XML-Schema#> ." ++
  "@prefix geo: <http://www.opengis.net/ont/geosparql#> ." ++
  "@prefix cnt: <http://www.w3.org/2011/content#> ." ++
  "@prefix dc: <http://purl.org/dc/elements/1.1/> ." ++
  "@prefix dctypes: <http://purl.org/dc/dcmitype/> ." ++
  "<chnode:annoID> a oa:Annotation ;" ++
  "    oa:hasTarget <chnode:targetID> ;" ++
  "    oa:hasBody <chnode:bodyID> ;" ++
  "    oa:motivatedBy oa:linking ." ++
  "<chnode:targetID> a charme:DatasetSubset ;" ++
  "    oa:hasSource <" ++ ToString datasetUri ++ "> ;" ++
  "    oa:hasSelector <chnode:subsetSelectorID> ." ++
  "<" ++ ToString datasetUri ++ "> a charme:dataset ." ++
  "<chnode:subsetSelectorID> a charme:SubsetSelector ;" ++
  "    charme:hasVariable <chnode:variableID-01> ;" ++
  "    charme:hasSpatialExtent <chnode:spatialExtentID-01> ." ++
  "<chnode:bodyID> a cnt:ContentAsText, dctypes:Text ;" ++
  "    cnt:chars " ++ dq ++ comment ++ dq ++ " ;" ++
  "    dc:format " ++ dq ++ "text/plain" ++ dq ++ " .    " ++
  "<chnode:variableID-01> a charme:Variable ;" ++
  "    charme:hasInternalName " ++ dq ++ ToString datasetVar ++ dq ++ " ." ++
  "<chnode:spatialExtentID-01> a charme:SpatialExtent ;" ++
  "    geo:hasGeometry <chnode:geometryID-01> ." ++
  "<chnode:geometryID-01> a geo:Geometry ;" ++
  "    geo:asWKT " ++ dq ++ ToString location ++ dq ++ "^^geo:wktLiteral .".

(** [getTurtle] of charme.js.  [now] is [new Date().toISOString()]; [name],
    [email] and [authorUri] are the values of the form's text inputs, the
    empty string for an input left blank. *)
Definition getTurtle (now : string) (name email authorUri : string)
  (datasetUri datasetVar : string) (location : value) (comment : string)
  : string :=
  "@prefix chnode: <http://localhost/> ." ++
  "@prefix charme: <http://purl.org/voc/charme#> ." ++
  "@prefix oa: <http://www.w3.org/ns/oa#> ." ++
  "@prefix foaf: <http://xmlns.com/foaf/0.1/> ." ++
  "@prefix prov: <http://www.w3.org/ns/prov#> ." ++
  "@prefix xsd: <http://www.w3.org/2001/XML-Schema#> ." ++
  "@prefix geo: <http://www.opengis.net/ont/geosparql#> ." ++
  "@prefix cnt: <http://www.w3.org/2011/content#> ." ++
  "@prefix dc: <http://purl.org/dc/elements/1.1/> ." ++
  "@prefix dctypes: <http://purl.org/dc/dcmitype/> ." ++
  "<chnode:annoID> a oa:Annotation ;" ++
  "    oa:annotatedAt " ++ dq ++ now ++ dq ++ " ;" ++
  "    oa:annotatedBy <" ++ authorUri ++ "> ;" ++
  "    oa:hasTarget <chnode:targetID> ;" ++
  "    oa:hasBody <chnode:bodyID> ;" ++
  "    oa:motivatedBy oa:linking ." ++
  "<" ++ authorUri ++ "> a foaf:Person ;" ++
  "    foaf:mbox <mailto:" ++ email ++ "> ;" ++
  "    foaf:name " ++ dq ++ name ++ dq ++ " ." ++
  "<chnode:targetID> a charme:DatasetSubset ;" ++
  "    oa:hasSource <" ++ datasetUri ++ "> ;" ++
  "    oa:hasSelector <chnode:subsetSelectorID> ." ++
  "<" ++ datasetUri ++ "> a charme:dataset ." ++
  "<chnode:subsetSelectorID> a charme:SubsetSelector ;" ++
  "    charme:hasVariable <chnode:variableID-01> ;" ++
  "    charme:hasSpatialExtent <chnode:spatialExtentID-01> ." ++
  "<chnode:bodyID> a cnt:ContentAsText, dctypes:Text ;" ++
  "    cnt:chars " ++ dq ++ comment ++ dq ++ " ;" ++
  "    dc:format " ++ dq ++ "text/plain" ++ dq ++ " .    " ++
  "<chnode:variableID-01> a charme:Variable ;" ++
  "    charme:hasInternalName " ++ dq ++ datasetVar ++ dq ++ " ." ++
  "<chnode:spatialExtentID-01> a charme:SpatialExtent ;" ++
  "    geo:hasGeometry <chnode:geometryID-01> ." ++
  "<chnode:geometryID-01> a geo:Geometry ;" ++
  "    geo:asWKT " ++ dq ++ ToString location ++ dq ++ "^^geo:wktLiteral .".

(** ** URL encoding *)

Module URI.

(** A string is the generalized UTF-8 of its code units: a surrogate pair is
    the four bytes of its code point, and a surrogate without a partner is
    the three bytes [ED], [A0]-[BF], [80]-[BF], which well-formed UTF-8
    excludes.  So a JavaScript string has an unpaired surrogate exactly when
    its bytes are not well-formed UTF-8.

    [utf8_from more lo hi s]: [s] is [more] continuation bytes, the first of
    them between [lo] and [hi], followed by well-formed UTF-8. *)
Fixpoint utf8_from (more lo hi : nat) (s : string) : bool :=
  match s with
  | EmptyString => (more =? 0)%nat
  | String c rest =>
      let n := nat_of_ascii c in
      match more with
      | O =>
          if (n <? 128)%nat then utf8_from 0 128 191 rest
          else if ((194 <=? n) && (n <=? 223))%nat then utf8_from 1 128 191 rest
          else if (n =? 224)%nat then utf8_from 2 160 191 rest
          else if (n =? 237)%nat then utf8_from 2 128 159 rest
          else if ((225 <=? n) && (n <=? 239))%nat then utf8_from 2 128 191 rest
          else if (n =? 240)%nat then utf8_from 3 144 191 rest
          else if (n =? 244)%nat then utf8_from 3 128 143 rest
          else if ((241 <=? n) && (n <=? 243))%nat then utf8_from 3 128 191 rest
          else false
      | S k => ((lo <=? n) && (n <=? hi))%nat && utf8_from k 128 191 rest
      end
  end.

(** The string has an unpaired surrogate. *)
Definition malformed (s : string) : bool := negb (utf8_from 0 128 191 s).

(** [encodeURIComponent] leaves [A-Z a-z 0-9 - _ . ! ~ * ' ( )] alone and
    writes every other byte of the UTF-8 text as [%XX]; this is the text it
    returns when it returns. *)
Definition unreserved (c : ascii) : bool :=
  let n := nat_of_ascii c in
  (((65 <=? n) && (n <=? 90)) || ((97 <=? n) && (n <=? 122))
   || ((48 <=? n) && (n <=? 57))
   || (n =? 45) || (n =? 95) || (n =? 46) || (n =? 33) || (n =? 126)
   || (n =? 42) || (n =? 39) || (n =? 40) || (n =? 41))%nat.

Definition hex_digit (n : nat) : ascii :=
  if (n <? 10)%nat then ascii_of_nat (48 + n) else ascii_of_nat (55 + n).

Fixpoint encodeURIComponent (s : string) : string :=
  match s with
  | EmptyString => EmptyString
  | String c rest =>
      if unreserved c then String c (encodeURIComponent rest)
      else
        let n := nat_of_ascii c in
        String "%"%char
          (String (hex_digit (n / 16))
             (String (hex_digit (n mod 16)) (encodeURIComponent rest)))
  end.

(** The call [encodeURIComponent(s)]: a [URIError] when [s] has an unpaired
    surrogate, the encoded text otherwise. *)
Definition call_encodeURIComponent (s : string) : outcome string :=
  if malformed s then Thrown (URIError "URI malformed")
  else Normal (encodeURIComponent s).

End URI.
Import URI.

(** ** The annotator and its environment *)

(** The OAuth client (the JSO library): the token it keeps in local storage
    for the provider. *)
Module JSO.

Record t : Type := mk { saved : value }.

(** [callback()]: on the redirect back from the node the access token of
    the page URL is stored. *)
Definition callback (hashToken : value) (o : t) : t :=
  match hashToken with
  | Some tok => mk (Some tok)
  | None => o
  end.

(** [checkToken()]: the stored token object, if any; the result here is its
    [access_token]. *)
Definition checkToken (o : t) : value := saved o.

Definition wipeTokens (o : t) : t := mk None.

End JSO.

(** Result records of the node, as [feature.properties] of the GeoJSON
    reply. *)
Module GeoJSON.

Record Properties : Type := mkProperties
  { text : value; time : value; email : value;
    firstname : value; surname : value }.

End GeoJSON.
Import GeoJSON.

(** The JSON body of the user-details reply, as far as the page reads it: a
    property the body does not have is [undefined]. *)
Record UserDetails : Type := mkUser
  { username : value; first_name : value; last_name : value }.

(** Events fired through the [L.Mixin.Events] interface of the annotator. *)
Inductive Fired : Type :=
| login (userdetails : UserDetails)
| logout.

(** The continuation attached to a [fetch] promise. *)
Inductive Continuation : Type :=
| ThenFireLogin      (* _init: user details, then fire 'login' *)
| ThenRender         (* toggleAnnotations: GeoJSON, then add the overlays *)
| ThenRefresh.       (* annoSubmit click: toggle twice when annotations are on *)

Record Request : Type := mkRequest
  { url : string;
    method : option string;      (* left out: the default, GET *)
    headers : list (string * string);
    body : option string;
    continuation : Continuation }.

Section Controller.
Context {N : Type} `{Number N}.

(** A layer with the identity Leaflet stamps on it. *)
Record Stamped : Type := mkStamped { stamp : nat; layer : Layer N }.

Record Feature : Type := mkFeature
  { geometry : Layer N; properties : option Properties }.

(** A layer made by [L.geoJson] for one feature, with the popup bound to it
    when the feature has properties. *)
Record Overlay : Type := mkOverlay
  { shape : Layer N; popup : option string }.

(** The Leaflet map, as far as the annotator changes it. *)
Record MapState : Type := mkMapState
  { drawControlShown : bool;       (* the draw control is on the map *)
    drawCreatedListener : bool }.  (* the 'draw:created' handler is wired *)

(** The fields of a [CharmeAnnotator] object. *)
Record CharmeAnnotator : Type := mkAnnotator
  { charmeUrl : string;
    charmeOAuth : JSO.t;
    map : MapState;
    drawControl : option unit;
    annotationsGroup : list (list Overlay);
    annotationsOn : bool;
    datasetUri : value;
    datasetVar : value;
    formatAnnotation : option (Properties -> string);
    token : value }.

(** The annotator together with what its callbacks close over and act on:
    the temporary feature group of [_init], the promises of [fetch], the
    events delivered to listeners, and the page globals. *)
Record World : Type := mkWorld
  { self : CharmeAnnotator;
    featureGroup : list Stamped;
    requests : list Request;          (* every fetch so far, oldest first *)
    settled : list nat;               (* positions already answered *)
    fired : list Fired;               (* oldest first *)
    jso : option JSO.t;               (* the global [jso], where bound *)
    redirected : bool;                (* an authorization redirect began *)
    wmsLayer : option (string * string);   (* page global of the demo *)
    toggleCalls : nat }.              (* ghost: calls of toggleAnnotations *)

(** *** A state-and-exception monad over the world *)

Definition M (A : Type) : Type := World -> outcome A * World.

Definition ret {A} (a : A) : M A := fun w => (Normal a, w).

Definition bind {A B} (m : M A) (k : A -> M B) : M B :=
  fun w =>
    match m w with
    | (Normal a, w') => k a w'
    | (Thrown e, w') => (Thrown e, w')
    end.

Definition throw {A} (e : error) : M A := fun w => (Thrown e, w).

Definition gets {A} (f : World -> A) : M A := fun w => (Normal (f w), w).

Definition modify (f : World -> World) : M unit := fun w => (Normal tt, f w).

(** [try { m } catch (e) { }] as [promise.catch] does it for a callback. *)
Definition caught (m : M unit) : M unit :=
  fun w => (Normal tt, snd (m w)).

(** The world a computation leaves, whether it returned or threw. *)
Definition exec {A} (m : M A) (w : World) : World := snd (m w).

End Controller.

Arguments Stamped N : clear implicits.
Arguments Feature N : clear implicits.
Arguments Overlay N : clear implicits.
Arguments CharmeAnnotator N : clear implicits.
Arguments World N : clear implicits.
Arguments M N A : clear implicits.

Notation "x <- m ;; k" := (bind m (fun x => k))
  (at level 61, m at next level, right associativity).
Notation "m ;;; k" := (bind m (fun _ => k))
  (at level 61, right associativity).

Section Operations.
Context {N : Type} `{Number N}.

(** *** Field updates *)

Definition with_charmeOAuth (o : JSO.t) (a : CharmeAnnotator N) :=
  mkAnnotator (charmeUrl a) o (map a) (drawControl a) (annotationsGroup a)
    (annotationsOn a) (datasetUri a) (datasetVar a) (formatAnnotation a)
    (token a).

Definition with_map (m : MapState) (a : CharmeAnnotator N) :=
  mkAnnotator (charmeUrl a) (charmeOAuth a) m (drawControl a)
    (annotationsGroup a) (annotationsOn a) (datasetUri a) (datasetVar a)
    (formatAnnotation a) (token a).

Definition with_annotationsGroup (g : list (list (Overlay N)))
  (a : CharmeAnnotator N) :=
  mkAnnotator (charmeUrl a) (charmeOAuth a) (map a) (drawControl a) g
    (annotationsOn a) (datasetUri a) (datasetVar a) (formatAnnotation a)
    (token a).

Definition with_annotationsOn (b : bool) (a : CharmeAnnotator N) :=
  mkAnnotator (charmeUrl a) (charmeOAuth a) (map a) (drawControl a)
    (annotationsGroup a) b (datasetUri a) (datasetVar a)
    (formatAnnotation a) (token a).

Definition with_dataset (uri var : value) (a : CharmeAnnotator N) :=
  mkAnnotator (charmeUrl a) (charmeOAuth a) (map a) (drawControl a)
    (annotationsGroup a) (annotationsOn a) uri var (formatAnnotation a)
    (token a).

Definition with_formatAnnotation (f : option (Properties -> string))
  (a : CharmeAnnotator N) :=
  mkAnnotator (charmeUrl a) (charmeOAuth a) (map a) (drawControl a)
    (annotationsGroup a) (annotationsOn a) (datasetUri a) (datasetVar a) f
    (token a).

Definition with_token (t : value) (a : CharmeAnnotator N) :=
  mkAnnotator (charmeUrl a) (charmeOAuth a) (map a) (drawControl a)
    (annotationsGroup a) (annotationsOn a) (datasetUri a) (datasetVar a)
    (formatAnnotation a) t.

Definition on_self (f : CharmeAnnotator N -> CharmeAnnotator N)
  (w : World N) :=
  mkWorld (f (self w)) (featureGroup w) (requests w) (settled w) (fired w)
    (jso w) (redirected w) (wmsLayer w) (toggleCalls w).

Definition with_featureGroup (g : list (Stamped N)) (w : World N) :=
  mkWorld (self w) g (requests w) (settled w) (fired w) (jso w)
    (redirected w) (wmsLayer w) (toggleCalls w).

Definition push_request (r : Request) (w : World N) :=
  mkWorld (self w) (featureGroup w) (requests w ++ [r]) (settled w)
    (fired w) (jso w) (redirected w) (wmsLayer w) (toggleCalls w).

Definition mark_settled (id : nat) (w : World N) :=
  mkWorld (self w) (featureGroup w) (requests w) (id :: settled w)
    (fired w) (jso w) (redirected w) (wmsLayer w) (toggleCalls w).

Definition push_fired (e : Fired) (w : World N) :=
  mkWorld (self w) (featureGroup w) (requests w) (settled w)
    (fired w ++ [e]) (jso w) (redirected w) (wmsLayer w) (toggleCalls w).

Definition begin_redirect (w : World N) :=
  mkWorld (self w) (featureGroup w) (requests w) (settled w) (fired w)
    (jso w) true (wmsLayer w) (toggleCalls w).

Definition with_wmsLayer (l : option (string * string)) (w : World N) :=
  mkWorld (self w) (featureGroup w) (requests w) (settled w) (fired w)
    (jso w) (redirected w) l (toggleCalls w).

Definition count_toggle (w : World N) :=
  mkWorld (self w) (featureGroup w) (requests w) (settled w) (fired w)
    (jso w) (redirected w) (wmsLayer w) (S (toggleCalls w)).

(** *** Collaborators *)

(** An expression without effect on the world. *)
Definition lift {A} (o : outcome A) : M N A := fun w => (o, w).

(** [fetch(url, {headers, body, method})]: the request leaves and its
    promise waits in [requests]; a [method] left out is [None]. *)
Definition fetch (u : string) (m : option string)
  (h : list (string * string)) (b : option string) (k : Continuation)
  : M N unit :=
  modify (push_request (mkRequest u m h b k)).

(** [this.fire(type, data)] *)
Definition fire (e : Fired) : M N unit := modify (push_fired e).

(** [getToken(callback)] of a JSO client: with a stored token the callback
    runs at once with it; without one the client starts the authorization
    redirect and the callback does not run. *)
Definition getToken (o : JSO.t) (callback : value -> M N unit) : M N unit :=
  match JSO.saved o with
  | Some tok => callback (Some tok)
  | None => modify begin_redirect
  end.

(** [featureGroup.addLayer] and [featureGroup.removeLayer], keyed by the
    layer's stamp. *)
Definition addLayer (d : Stamped N) (g : list (Stamped N)) :=
  if existsb (fun x => stamp x =? stamp d)%nat g then g else (g ++ [d])%list.

Definition removeLayer (id : nat) (g : list (Stamped N)) :=
  filter (fun x => negb (stamp x =? id)%nat) g.

(** *** CharmeAnnotator *)

(** The constructor followed by [_init].  [hashToken] is the access token
    in the URL of a redirect back from the node, [storage] what the OAuth
    client kept from an earlier session, [jso] the page's global of that
    name if it has one.  The client id only configures the redirect. *)
Definition new_CharmeAnnotator (charmeUrl : string) (hashToken : value)
  (storage : JSO.t) (jso : option JSO.t) : World N :=
  let charmeOAuth := JSO.callback hashToken storage in
  match JSO.checkToken charmeOAuth with
  | Some access_token =>
      mkWorld
        (mkAnnotator charmeUrl charmeOAuth (mkMapState true true) (Some tt)
           [] false undefined undefined None (Some access_token))
        []
        [mkRequest (charmeUrl ++ "token/userinfo") None
           [("Authorization", "Token " ++ access_token)] None ThenFireLogin]
        [] [] jso false None 0
  | None =>
      mkWorld
        (mkAnnotator charmeUrl charmeOAuth (mkMapState false false) None
           [] false undefined undefined None undefined)
        [] [] [] [] jso false None 0
  end.

Definition setDatasetDetails (uri variable : string) : M N unit :=
  modify (on_self (with_dataset (Some uri) (Some variable))).

Definition charmeLogin : M N unit :=
  a <- gets self ;;
  getToken (charmeOAuth a) (fun _ => ret tt).

(** [map.removeControl(undefined)] raises a [TypeError], and taking off a
    control that is not on the map raises a [NotFoundError] (its container
    is no child of the map's corner).  The call is the last statement, so
    the token is wiped and the event fired before it. *)
Definition charmeLogout : M N unit :=
  modify (on_self (fun a => with_charmeOAuth (JSO.wipeTokens (charmeOAuth a)) a)) ;;;
  modify (on_self (with_token undefined)) ;;;
  fire logout ;;;
  a <- gets self ;;
  match drawControl a with
  | None => throw (TypeError "Cannot read properties of undefined")
  | Some _ =>
      if drawControlShown (map a)
      then modify (on_self (with_map
             (mkMapState false (drawCreatedListener (map a)))))
      else throw (NotFoundError
                    "The node to be removed is not a child of this node")
  end.

Definition setFormatAnnotation (f : option (Properties -> string))
  : M N unit :=
  modify (on_self (with_formatAnnotation f)).

Definition isAnnotationsOn : M N bool :=
  gets (fun w => annotationsOn (self w)).

(** The argument of [fetch] is evaluated before the request leaves and
    before the flag is set: a [URIError] of [encodeURIComponent] ends the
    call there. *)
Definition toggleAnnotations : M N unit :=
  modify count_toggle ;;;
  a <- gets self ;;
  if annotationsOn a then
    modify (on_self (with_annotationsGroup [])) ;;;
    modify (on_self (with_annotationsOn false))
  else
    query <- lift (call_encodeURIComponent
                     (_getQuery (datasetUri a) (datasetVar a))) ;;
    fetch (charmeUrl a ++ "sparql?format=GeoJSON&query=" ++ query)
      None [("Accept", "application/json")] None ThenRender ;;;
    modify (on_self (with_annotationsOn true)).

(** The default popup text of [onEachFeature]. *)
Definition defaultFormat (p : Properties) : string :=
  let popupText := "" in
  let popupText :=
    if truthy (text p)
    then popupText ++ ToString (text p) ++ "<br><br>" else popupText in
  let popupText :=
    if truthy (time p)
    then popupText ++ "Annotated at " ++ ToString (time p) ++ " by:<br>"
    else popupText in
  let popupText :=
    if truthy (email p)
    then popupText ++ "<a href=" ++ dq ++ "mailto:" ++ ToString (email p)
                   ++ dq ++ ">"
    else popupText in
  let popupText :=
    if truthy (firstname p) && truthy (surname p)
    then popupText ++ "<b>" ++ ToString (firstname p) ++ " "
                   ++ ToString (surname p) ++ "</b><br>"
    else popupText in
  if truthy (email p) then popupText ++ "</a>" else popupText.

Definition onEachFeature (fmt : option (Properties -> string))
  (feature : Feature N) : Overlay N :=
  match properties feature with
  | Some p =>
      mkOverlay (geometry feature)
        (Some (match fmt with Some f => f p | None => defaultFormat p end))
  | None => mkOverlay (geometry feature) None
  end.

(** The second [then] of the query promise:
    [L.geoJson(resp, ...).addTo(that.annotationsGroup)].  Nothing is read
    but [formatAnnotation] and the group itself. *)
Definition render (resp : list (Feature N)) : M N unit :=
  a <- gets self ;;
  modify (on_self (with_annotationsGroup
    (annotationsGroup a ++ [List.map (onEachFeature (formatAnnotation a)) resp])%list)).

(** The [then] of the insert promise. *)
Definition refresh : M N unit :=
  a <- gets self ;;
  if annotationsOn a then toggleAnnotations ;;; toggleAnnotations
  else ret tt.

(** The 'draw:created' handler, as far as the temporary group goes.  The
    popup with the form is not kept: which popup is open, and so which
    forms can still be clicked and which shapes a closing popup takes off,
    is left to the events ([PopupClose] and the two clicks on a submit
    button below). *)
Definition draw_created (drawEvent : Stamped N) : M N unit :=
  modify (fun w => with_featureGroup (addLayer drawEvent (featureGroup w)) w).

Definition popupclose (id : nat) : M N unit :=
  modify (fun w => with_featureGroup (removeLayer id (featureGroup w)) w).

(** The click handler of the form's submit button. *)
Definition annoSubmit_click (drawEvent : Stamped N) (comment : string)
  : M N unit :=
  location <- lift (_getLocationString (layer drawEvent)) ;;
  a <- gets self ;;
  let ttl := _getTurtle (datasetUri a) (datasetVar a) location comment in
  (if truthy (token a) then ret tt
   else
     j <- gets jso ;;
     match j with
     | None => throw (ReferenceError "jso")
     | Some j => getToken j (fun tkn => modify (on_self (with_token tkn)))
     end) ;;;
  a <- gets self ;;
  fetch (charmeUrl a ++ "insert/annotation") (Some "post")
    [("Content-Type", "text/turtle");
     ("Authorization", "Token " ++ ToString (token a))]
    (Some ttl) ThenRefresh ;;;
  modify (fun w =>
    with_featureGroup (removeLayer (stamp drawEvent) (featureGroup w)) w).

(** *** The demo page *)

(** [selectDataset] of the page script, which the page calls with its three
    datasets; the WMS layer is kept as the pair it is made from. *)
Definition selectDataset (datasetUri variable : string) : M N unit :=
  setDatasetDetails datasetUri variable ;;;
  modify (with_wmsLayer (Some (datasetUri, variable))) ;;;
  on <- isAnnotationsOn ;;
  if on then toggleAnnotations ;;; toggleAnnotations else ret tt.

Definition toggleAnnotationsButton_click : M N bool :=
  toggleAnnotations ;;; isAnnotationsOn.

End Operations.

(** ** The event loop

    One event is handled to completion before the next; an exception that
    leaves a handler ends that handler and keeps the state reached. *)

Section EventLoop.
Context {N : Type} `{Number N}.

(** What a fulfilled promise carries.  [resp.json()] parses the body: a
    JSON body is kept as its three user properties ([UserInfo]; an object
    that [L.geoJson] does not accept) or as the GeoJSON feature collection
    it is; [NoContent] is a body that is not JSON. *)
Inductive Reply : Type :=
| UserInfo (userdetails : UserDetails)
| FeatureCollection (resp : list (Feature N))
| NoContent.

(** What the listener of 'login' reads of a parsed body. *)
Definition userdetails_of (reply : Reply) : option UserDetails :=
  match reply with
  | UserInfo userdetails => Some userdetails
  | FeatureCollection _ => Some (mkUser undefined undefined undefined)
  | NoContent => None
  end.

(** The request behind promise [id], while it has not been answered. *)
Definition in_flight (id : nat) (w : World N) : option Request :=
  if existsb (Nat.eqb id) (settled w) then None
  else nth_error (requests w) id.

(** The promise [id] is fulfilled: its [then] callbacks run.  The
    user-details promise fires 'login' with whatever JSON the body is; the
    query promise renders a feature collection, and [L.geoJson] throws on
    another object; a body that is not JSON makes either promise reject.
    The insert promise does not read the body, and only it has a [catch]. *)
Definition resolve (id : nat) (reply : Reply) : M N unit :=
  w <- gets (fun w => w) ;;
  match in_flight id w with
  | None => ret tt
  | Some r =>
      modify (mark_settled id) ;;;
      match continuation r with
      | ThenFireLogin =>
          match userdetails_of reply with
          | Some userdetails => fire (login userdetails)
          | None => ret tt
          end
      | ThenRender =>
          match reply with
          | FeatureCollection resp => render resp
          | _ => ret tt
          end
      | ThenRefresh => caught refresh
      end
  end.

(** The promise [id] is rejected (network failure): no [then] callback
    runs; the [catch] of the insert promise only logs. *)
Definition reject (id : nat) : M N unit :=
  w <- gets (fun w => w) ;;
  match in_flight id w with
  | None => ret tt
  | Some _ => modify (mark_settled id)
  end.

(** The two [Call_] events are calls of the public methods by a page.
    [Click_annoSubmit id] is the click on the submit button of the form
    opened for the shape [id] while that shape is in the temporary group.
    [Click_annoSubmit_stale] is the click on a form that is still open after
    its shape has left the group, which happens when the popup showing the
    form belongs to another layer; every form was made by the 'draw:created'
    handler, so there is none where that handler is not wired. *)
Inductive Event : Type :=
| Click_toggleAnnotationsButton
| Click_datasetButton (uri variable : string)
| Click_loginButton
| Click_logoutButton
| Call_setDatasetDetails (uri variable : string)
| Call_setFormatAnnotation (f : option (Properties -> string))
| DrawCreated (drawEvent : Stamped N)
| PopupClose (id : nat)
| Click_annoSubmit (id : nat) (comment : string)
| Click_annoSubmit_stale (drawEvent : Stamped N) (comment : string)
| Resolved (id : nat) (reply : Reply)
| Rejected (id : nat).

Definition handle (e : Event) : M N unit :=
  match e with
  | Click_toggleAnnotationsButton =>
      toggleAnnotationsButton_click ;;; ret tt
  | Click_datasetButton uri variable => selectDataset uri variable
  | Click_loginButton => charmeLogin
  | Click_logoutButton => charmeLogout
  | Call_setDatasetDetails uri variable => setDatasetDetails uri variable
  | Call_setFormatAnnotation f => setFormatAnnotation f
  | DrawCreated drawEvent =>
      a <- gets self ;;
      if drawCreatedListener (map a) then draw_created drawEvent
      else ret tt
  | PopupClose id => popupclose id
  | Click_annoSubmit id comment =>
      g <- gets featureGroup ;;
      match find (fun x => stamp x =? id)%nat g with
      | Some drawEvent => annoSubmit_click drawEvent comment
      | None => ret tt
      end
  | Click_annoSubmit_stale drawEvent comment =>
      a <- gets self ;;
      if drawCreatedListener (map a) then annoSubmit_click drawEvent comment
      else ret tt
  | Resolved id reply => resolve id reply
  | Rejected id => reject id
  end.

Definition step (w : World N) (e : Event) : World N := exec (handle e) w.

Definition run (es : list Event) (w : World N) : World N :=
  fold_left step es w.

End EventLoop.

Arguments Reply N : clear implicits.
Arguments Event N : clear implicits.

(** ** Vocabulary of the properties *)

(** The prefix declarations both queries start with. *)
Definition sparql_prefixes : string :=
  "PREFIX charme: <http://purl.org/voc/charme#> " ++
  "PREFIX oa: <http://www.w3.org/ns/oa#> " ++
  "PREFIX geo: <http://www.opengis.net/ont/geosparql#> " ++
  "PREFIX geof: <http://www.opengis.net/def/function/geosparql/> " ++
  "PREFIX cnt: <http://www.w3.org/2011/content#> " ++
  "PREFIX foaf: <http://xmlns.com/foaf/0.1/> ".

(** A projection on the given columns. *)
Definition select_clause (columns : list string) : string :=
  "SELECT " ++ String.concat " " (List.map (fun c => "?" ++ c) columns) ++ " ".

(** The join of the dataset query: annotation, author, body, target,
    selector, spatial extent, geometry, WKT, and variable name. *)
Definition dataset_patterns : string :=
  "    ?anno oa:hasBody ?body . " ++
  "    ?anno oa:annotatedBy ?authorUri . " ++
  "    ?anno oa:annotatedAt ?time . " ++
  "    ?authorUri foaf:givenName ?firstname . " ++
  "    ?authorUri foaf:familyName ?surname . " ++
  "    ?authorUri foaf:accountName ?account . " ++
  "    ?body cnt:chars ?text . " ++
  "    ?anno oa:hasTarget ?target . " ++
  "    ?target oa:hasSelector ?selector . " ++
  "    ?selector charme:hasSpatialExtent ?sp . " ++
  "    ?sp geo:hasGeometry ?geometry . " ++
  "    ?geometry geo:asWKT ?wkt . " ++
  "    ?datasetUri a charme:dataset . " ++
  "    ?selector charme:hasVariable ?variableUri . " ++
  "    ?variableUri charme:hasInternalName ?variableName . " ++
  "    ?authorUri foaf:mbox ?email . ".

(** The join of the viewport query. *)
Definition viewport_patterns : string :=
  "    ?anno oa:hasBody ?body . " ++
  "    ?anno oa:annotatedBy ?authorUri . " ++
  "    ?authorUri foaf:name ?name . " ++
  "    ?body cnt:chars ?text . " ++
  "    ?anno oa:hasTarget ?target . " ++
  "    ?target oa:hasSelector ?selector . " ++
  "    ?selector charme:hasSpatialExtent ?sp . " ++
  "    ?sp geo:hasGeometry ?geometry . " ++
  "    ?geometry geo:asWKT ?wkt . ".

(** The triples [getTurtle] writes about the author. *)
Definition author_triples (authorUri email name : string) : string :=
  "<" ++ authorUri ++ "> a foaf:Person ;" ++
  "    foaf:mbox <mailto:" ++ email ++ "> ;" ++
  "    foaf:name " ++ dq ++ name ++ dq ++ " .".

(** A text names the author when it uses the FOAF vocabulary or the
    [oa:annotatedBy] property. *)
Definition mentions_author (t : string) : bool :=
  includes t "foaf:" || includes t "annotatedBy".

Section Vocabulary.
Context {N : Type} `{Number N}.

(** The text the loop appends: every pair followed by a comma and a
    space. *)
Fixpoint each_then_comma (ps : list (LatLng N)) : string :=
  match ps with
  | [] => ""
  | p :: rest => pair_text p ++ ", " ++ each_then_comma rest
  end.

(** The corners of the viewport in the order the query lists them:
    south-west, north-west, north-east, south-east, and south-west again. *)
Definition corners (bounds : LatLngBounds N) : list (LatLng N) :=
  let sw := _southWest bounds in
  let ne := _northEast bounds in
  [sw; mkLatLng (lat ne) (lng sw); ne; mkLatLng (lat sw) (lng ne); sw].

(** The flag is on exactly when [toggleAnnotations] has been called an odd
    number of times. *)
Definition parity (w : World N) : Prop :=
  annotationsOn (self w) = Nat.odd (toggleCalls w).

(** The events of a session in which the user only clicks the toggle
    button while requests are answered or fail. *)
Definition button_or_settlement (e : Event N) : bool :=
  match e with
  | Click_toggleAnnotationsButton | Resolved _ _ | Rejected _ => true
  | _ => false
  end.

Fixpoint button_clicks (es : list (Event N)) : nat :=
  match es with
  | [] => 0
  | Click_toggleAnnotationsButton :: rest => S (button_clicks rest)
  | _ :: rest => button_clicks rest
  end.

(** No annotation has been submitted: every request is the user-details
    lookup or a query. *)
Definition only_queries (w : World N) : Prop :=
  Forall (fun r => continuation r <> ThenRefresh) (requests w).

(** The request [toggleAnnotations] sends for the current selection. *)
Definition query_request (a : CharmeAnnotator N) : Request :=
  mkRequest
    (charmeUrl a ++ "sparql?format=GeoJSON&query="
       ++ encodeURIComponent (_getQuery (datasetUri a) (datasetVar a)))
    None [("Accept", "application/json")] None ThenRender.

(** The request the submit handler posts. *)
Definition insert_request (a : CharmeAnnotator N) (authorization : value)
  (location : value) (comment : string) : Request :=
  mkRequest (charmeUrl a ++ "insert/annotation") (Some "post")
    [("Content-Type", "text/turtle");
     ("Authorization", "Token " ++ ToString authorization)]
    (Some (_getTurtle (datasetUri a) (datasetVar a) location comment))
    ThenRefresh.

(** The selection can be written into a URL: neither the dataset URI nor the
    variable name has an unpaired surrogate. *)
Definition selection_encodable (a : CharmeAnnotator N) : bool :=
  negb (malformed (ToString (datasetUri a)))
  && negb (malformed (ToString (datasetVar a))).

(** An event that selects a dataset selects one that can be written into a
    URL. *)
Definition selects_encodable (e : Event N) : bool :=
  match e with
  | Click_datasetButton uri variable | Call_setDatasetDetails uri variable =>
      negb (malformed uri) && negb (malformed variable)
  | _ => true
  end.

End Vocabulary.

(** *** Concrete pages and shapes *)

(** A triangle drawn on the map: three corners, the ring left open. *)
Definition triangle : list (LatLng Z) :=
  [mkLatLng 10 20; mkLatLng 30 40; mkLatLng 50 60]%Z.

(** The viewport of the scenario: south-west (0, 0), north-east (10, 10). *)
Definition viewport : LeafletMap Z :=
  mkMap (mkBounds (mkLatLng 0 0) (mkLatLng 10 10))%Z.

(** The node of the demo page. *)
Definition node : string := "http://192.168.56.102/".

(** A page opened without a stored token and without a global [jso]. *)
Definition visitor : World Z :=
  new_CharmeAnnotator node None (JSO.mk None) None.

(** A page opened with a stored token; [jso] is as given. *)
Definition member (jso : option JSO.t) : World Z :=
  new_CharmeAnnotator node None
    (JSO.mk (Some "d4b0cf754c6bfe5208182325d96c1d5dec5964ba")) jso.

(** The string of one code unit ['\ud800'], a high surrogate without its
    partner. *)
Definition lone_surrogate : string :=
  String (ascii_of_nat 237)
    (String (ascii_of_nat 160) (String (ascii_of_nat 128) EmptyString)).

(** A new page on which [setDatasetDetails('\ud800', 'v')] has been called. *)
Definition unencodable : World Z :=
  run [Call_setDatasetDetails lone_surrogate "v"] visitor.

Definition cci : string := "http://192.168.56.102:8080/ncWMS2/wms/cci".
Definition lc : string := "http://192.168.56.102:8080/ncWMS2/wms/lc".

(** One annotation of the sea-surface temperature, at a point. *)
Definition hot : Feature Z :=
  mkFeature (Marker (mkLatLng 55 (-3))%Z)
    (Some (mkProperties (Some "hot") None None None None)).

Definition hot_overlay : Overlay Z :=
  mkOverlay (Marker (mkLatLng 55 (-3))%Z) (Some "hot<br><br>").

Section MoreVocabulary.
Context {N : Type} `{Number N}.

(** The number of 'login' events among the fired ones. *)
Fixpoint logins (fs : list Fired) : nat :=
  match fs with
  | [] => 0
  | login _ :: rest => S (logins rest)
  | logout :: rest => logins rest
  end.

(** The posts of annotations among the requests. *)
Definition inserts (rs : list Request) : list Request :=
  filter (fun r => match continuation r with
                   | ThenRefresh => true
                   | _ => false
                   end) rs.

(** Bookkeeping of the promises: a settled promise was issued, none is
    settled twice, and every layer of the annotations group came with a
    reply. *)
Definition promises_consistent (w : World N) : Prop :=
  NoDup (settled w)
  /\ Forall (fun id => id < length (requests w)) (settled w)
  /\ length (annotationsGroup (self w)) <= length (settled w).

(** Only the first request can be the user-details lookup, and 'login' has
    fired once if that lookup has been answered and not at all before. *)
Definition login_once (w : World N) : Prop :=
  (forall i r, nth_error (requests w) i = Some r ->
               continuation r = ThenFireLogin -> i = 0)
  /\ (logins (fired w) = 0 \/ (logins (fired w) = 1 /\ In 0 (settled w))).

(** A page on which nobody is logged in and nothing was drawn. *)
Definition anonymous (w : World N) : Prop :=
  token (self w) = undefined
  /\ drawControl (self w) = None
  /\ drawCreatedListener (map (self w)) = false
  /\ featureGroup w = []
  /\ Forall (fun r => continuation r = ThenRender) (requests w)
  /\ logins (fired w) = 0.

End MoreVocabulary.

(** Every character of a text satisfies a test. *)
Fixpoint all_chars (test : ascii -> bool) (s : string) : bool :=
  match s with
  | EmptyString => true
  | String c rest => test c && all_chars test rest
  end.

(** What separates the two filters of the dataset query: the end of the
    variable filter and the start of the dataset filter. *)
Definition filter_seam : string :=
  dq ++ ") . FILTER(str(?datasetUri)=" ++ dq.

(** ** The demo page

    The page script around the annotator: the three dataset buttons, the
    toggle button with its label, the login and logout buttons and the
    greeting.  Of an element only what the script writes is kept; [None] is
    the value the HTML gave it. *)

Module Demo.

Definition charmeUrl : string := "http://192.168.56.102/".
Definition ncwmsServer : string := "http://192.168.56.102:8080/ncWMS2/wms".

Record Document : Type := mkDocument
  { greeting : option string;                  (* innerHTML *)
    loginButton : option bool;                 (* disabled *)
    logoutButton : option bool;                (* disabled *)
    toggleAnnotationsButton : option string;   (* innerHTML *)
    sstButton : option bool;                   (* disabled *)
    sstErrorButton : option bool;              (* disabled *)
    landCoverButton : option bool }.           (* disabled *)

Definition blank : Document :=
  mkDocument None None None None None None None.

(** The listener of 'login'. *)
Definition on_login (userdetails : UserDetails) (d : Document) : Document :=
  mkDocument
    (Some ("Logged in as user " ++ ToString (username userdetails) ++ "("
             ++ ToString (first_name userdetails) ++ " "
             ++ ToString (last_name userdetails) ++ ")"))
    (Some true) (Some false)
    (toggleAnnotationsButton d) (sstButton d) (sstErrorButton d)
    (landCoverButton d).

(** The listener of 'logout'. *)
Definition on_logout (d : Document) : Document :=
  mkDocument (Some "Please login to add annotations") (Some false) (Some true)
    (toggleAnnotationsButton d) (sstButton d) (sstErrorButton d)
    (landCoverButton d).

Definition listen (d : Document) (f : Fired) : Document :=
  match f with
  | login userdetails => on_login userdetails d
  | logout => on_logout d
  end.

Definition set_label (on : bool) (d : Document) : Document :=
  mkDocument (greeting d) (loginButton d) (logoutButton d)
    (Some (if on then "Hide annotations" else "Show annotations"))
    (sstButton d) (sstErrorButton d) (landCoverButton d).

Definition set_datasets (sst sstError landCover : bool) (d : Document)
  : Document :=
  mkDocument (greeting d) (loginButton d) (logoutButton d)
    (toggleAnnotationsButton d) (Some sst) (Some sstError) (Some landCover).

Section Page.
Context {N : Type} `{Number N}.

Record Page : Type := mkPage { annotator : World N; document : Document }.

(** What can happen on the page: the clicks on its six buttons, and what the
    annotator handles by itself. *)
Inductive PageEvent : Type :=
| click_toggleAnnotationsButton
| click_loginButton
| click_logoutButton
| click_sstButton
| click_sstErrorButton
| click_landCoverButton
| drawn (drawEvent : Stamped N)
| popup_closed (id : nat)
| submitted (id : nat) (comment : string)
| submitted_stale (drawEvent : Stamped N) (comment : string)
| resolved (id : nat) (reply : Reply N)
| rejected (id : nat).

(** The part of a handler that runs in the annotator. *)
Definition to_annotator (e : PageEvent) : Event N :=
  match e with
  | click_toggleAnnotationsButton => Click_toggleAnnotationsButton
  | click_loginButton => Click_loginButton
  | click_logoutButton => Click_logoutButton
  | click_sstButton =>
      Click_datasetButton (ncwmsServer ++ "/cci") "analysed_sst"
  | click_sstErrorButton =>
      Click_datasetButton (ncwmsServer ++ "/cci") "analysis_error"
  | click_landCoverButton =>
      Click_datasetButton (ncwmsServer ++ "/lc") "land_cover"
  | drawn drawEvent => DrawCreated drawEvent
  | popup_closed id => PopupClose id
  | submitted id comment => Click_annoSubmit id comment
  | submitted_stale drawEvent comment =>
      Click_annoSubmit_stale drawEvent comment
  | resolved id reply => Resolved id reply
  | rejected id => Rejected id
  end.

(** The statements of a click handler after its call into the annotator. *)
Definition then_in_document (e : PageEvent) (w : World N) (d : Document)
  : Document :=
  match e with
  | click_toggleAnnotationsButton => set_label (annotationsOn (self w)) d
  | click_sstButton => set_datasets true false false d
  | click_sstErrorButton => set_datasets false true false d
  | click_landCoverButton => set_datasets false false true d
  | _ => d
  end.

(** One event on the page.  The listeners of 'login' and 'logout' run inside
    [fire]; they only write the document, which the annotator never reads, so
    they are applied here to the events fired during the step, in order.
    The statements after the call into the annotator run when the call has
    returned. *)
Definition page_step (p : Page) (e : PageEvent) : Page :=
  let w := annotator p in
  let w' := step w (to_annotator e) in
  let heard := skipn (length (fired w)) (fired w') in
  let d := fold_left listen heard (document p) in
  mkPage w'
    (match fst (handle (to_annotator e) w) with
     | Normal _ => then_in_document e w' d
     | Thrown _ => d
     end).

Definition page_run (es : list PageEvent) (p : Page) : Page :=
  fold_left page_step es p.

(** The page when the document has loaded. *)
Definition loaded (hashToken : value) (storage : JSO.t)
  (jso : option JSO.t) : Page :=
  mkPage (new_CharmeAnnotator charmeUrl hashToken storage jso) blank.

(** The toggle button says what a click on it will do. *)
Definition label_in_step (p : Page) : Prop :=
  toggleAnnotationsButton (document p) = None
  \/ toggleAnnotationsButton (document p)
     = Some (if annotationsOn (self (annotator p))
             then "Hide annotations" else "Show annotations").

(** The disabled dataset button is the one of the selected dataset. *)
Definition dataset_in_step (p : Page) : Prop :=
  let d := document p in
  let a := self (annotator p) in
  (datasetUri a = undefined /\ datasetVar a = undefined
   /\ sstButton d = None /\ sstErrorButton d = None
   /\ landCoverButton d = None)
  \/ (datasetUri a = Some (ncwmsServer ++ "/cci")
      /\ datasetVar a = Some "analysed_sst"
      /\ sstButton d = Some true /\ sstErrorButton d = Some false
      /\ landCoverButton d = Some false)
  \/ (datasetUri a = Some (ncwmsServer ++ "/cci")
      /\ datasetVar a = Some "analysis_error"
      /\ sstButton d = Some false /\ sstErrorButton d = Some true
      /\ landCoverButton d = Some false)
  \/ (datasetUri a = Some (ncwmsServer ++ "/lc")
      /\ datasetVar a = Some "land_cover"
      /\ sstButton d = Some false /\ sstErrorButton d = Some false
      /\ landCoverButton d = Some true).

(** Of the login and logout buttons exactly one is disabled and the greeting
    is written, once a listener has run. *)
Definition session_in_step (p : Page) : Prop :=
  let d := document p in
  (loginButton d = None /\ logoutButton d = None /\ greeting d = None)
  \/ (exists b, loginButton d = Some b /\ logoutButton d = Some (negb b)
                /\ greeting d <> None).

End Page.

End Demo.

(** ** The first page script, charme.js

    The page has no annotator object: the script keeps the map in a global,
    posts with a fixed token and asks the Strabon endpoint directly. *)

Module Prototype.

Definition endpointUrl : string := "http://192.168.56.102/".
Definition token : string := "d4b0cf754c6bfe5208182325d96c1d5dec5964ba".
Definition datasetUri : string := "http://dataset/uri".
Definition datasetVar : string := "selectedVar".
Definition strabon : string :=
  "http://192.168.56.102:8080/strabonendpoint/Query".

(** The line feed of ['\n']. *)
Definition lf : string := String (ascii_of_nat 10) EmptyString.

(** An object literal used as a map: its own properties in order. *)
Definition Object : Type := list (string * string).

(** A hidden input of a generated form. *)
Record Hidden : Type := mkHidden { name : string; value : string }.

Definition Form : Type := list Hidden.

(** What [$.request] is given as data. *)
Inductive Data : Type :=
| Fields (params : Object)
| Text (ttl : string).

Record Request : Type := mkRequest
  { method : string;
    url : string;
    data : Data;
    headers : list (string * string) }.

Record Properties : Type := mkProperties
  { text : JS.value; author : JS.value }.     (* [text] and [name] *)

Section Page.
Context {N : Type} `{Number N}.

Record Feature : Type := mkFeature
  { geometry : Layer N; properties : option Properties }.

Record Overlay : Type := mkOverlay
  { shape : Layer N; popup : option string }.

(** The globals and the document of the page. *)
Record Page : Type := mkPage
  { map : option (LeafletMap N);       (* undefined until the page loaded *)
    onMap : list (list Overlay);       (* GeoJSON layers added to the map *)
    featureGroup : list (Stamped N);   (* drawn shapes with an open form *)
    form : option Form;                (* the global [form] *)
    body : list Form;                  (* forms appended to the body *)
    requests : list Request }.

(** [generateForm(path, params)]: a hidden input for each own property of
    [params]; a loop over [undefined] has no iteration.  The form is appended
    to the body and returned. *)
Definition generateForm (path params : option Object) (p : Page)
  : Form * Page :=
  let made :=
    match params with
    | Some object => List.map (fun kv => mkHidden (fst kv) (snd kv)) object
    | None => []
    end in
  (made,
   mkPage (map p) (onMap p) (featureGroup p) (form p) (body p ++ [made])
     (requests p)).

(** [toggleAnnotations()] of charme.js.  [generateForm] is called with the
    parameters alone, which it takes as [path]. *)
Definition toggleAnnotations (p : Page) : outcome unit * Page :=
  match getQuery (map p) (map p) with
  | Thrown e => (Thrown e, p)
  | Normal query =>
      let params := [("query", query); ("format", "GeoJSON")] in
      let headers := [("Accept", "application/json")] in
      let (made, p1) := generateForm (Some params) None p in
      (Normal tt,
       mkPage (map p1) (onMap p1) (featureGroup p1) (Some made) (body p1)
         (requests p1 ++ [mkRequest "get" strabon (Fields params) headers]))
  end.

(** [onEachFeature] of the reply: a popup only for a feature with a [text]. *)
Definition onEachFeature (feature : Feature) : Overlay :=
  match properties feature with
  | Some props =>
      if truthy (text props)
      then mkOverlay (geometry feature)
             (Some (ToString (text props) ++ lf ++ ToString (author props)))
      else mkOverlay (geometry feature) None
  | None => mkOverlay (geometry feature) None
  end.

(** The [then] of the query: [L.geoJson(...).addTo(map)]. *)
Definition rendered (resp : list Feature) (p : Page) : Page :=
  mkPage (map p) (onMap p ++ [List.map onEachFeature resp]) (featureGroup p)
    (form p) (body p) (requests p).

(** The click on the submit button of the form opened for [drawEvent]; [now]
    is the clock at the click, the four texts are the inputs of the form. *)
Definition submit_click (now : string) (name email authorUri comment : string)
  (drawEvent : Stamped N) (p : Page) : outcome unit * Page :=
  match getLocationString (layer drawEvent) with
  | Thrown e => (Thrown e, p)
  | Normal location =>
      let ttl := getTurtle now name email authorUri datasetUri datasetVar
                   location comment in
      let headers := [("Content-Type", "text/turtle");
                      ("Authorization", "Token " ++ token)] in
      (Normal tt,
       mkPage (map p) (onMap p)
         (removeLayer (stamp drawEvent) (featureGroup p)) (form p) (body p)
         (requests p
          ++ [mkRequest "post" (endpointUrl ++ "insert/annotation") (Text ttl)
                headers]))
  end.

End Page.

End Prototype.

(** *** More concrete pages and shapes *)

(** A rectangle as Leaflet lists its corners: south-west, north-west,
    north-east, south-east. *)
Definition rectangle : list (LatLng Z) :=
  [mkLatLng 0 0; mkLatLng 10 0; mkLatLng 10 10; mkLatLng 0 10]%Z.

(** A marker drawn on the map. *)
Definition drawn_marker : Stamped Z :=
  mkStamped 1 (Marker (mkLatLng 55 (-3))%Z).

(** A member who has drawn a marker and then logged out, on a page without
    a global [jso]; the user-details lookup is still unanswered. *)
Definition logged_out : World Z :=
  run [DrawCreated drawn_marker; Click_logoutButton] (member None).

(** A member with annotations on who has submitted a comment. *)
Definition just_submitted : World Z :=
  run [Click_toggleAnnotationsButton; DrawCreated drawn_marker;
       Click_annoSubmit 1 "hot"] (member None).

(** The demo page of a member who has clicked the logout button. *)
Definition demo_logged_out : Demo.Page (N:=Z) :=
  Demo.page_run [Demo.click_logoutButton]
    (Demo.loaded None (JSO.mk (Some "d4b0cf754c6bfe5208182325d96c1d5dec5964ba"))
       None).

Definition alice : UserDetails :=
  mkUser (Some "alice") (Some "Alice") (Some "Liddell").

(** * Properties *)

(** ** Text *)

Lemma append_assoc (a b c : string) : (a ++ b) ++ c = a ++ (b ++ c).
Proof.
  induction a as [|ch a IH]; simpl.
  - reflexivity.
  - now rewrite IH.
Qed.

Lemma append_nil_r (a : string) : a ++ "" = a.
Proof.
  induction a as [|ch a IH]; simpl; [reflexivity | now rewrite IH].
Qed.

Lemma prefix_append (a s : string) :
  prefix a s = true <-> exists post, s = a ++ post.
Proof.
  revert s. induction a as [|ch a IH]; intros s.
  - split; [intros _; exists s; reflexivity | intros _; now destruct s].
  - destruct s as [|ch' s]; simpl.
    + split; [discriminate | intros [post E]; discriminate].
    + destruct (ascii_dec ch ch') as [->|ne].
      * rewrite IH. split; intros [post E]; exists post.
        -- now rewrite E.
        -- now injection E.
      * split; [discriminate|].
        intros [post E]. injection E as E1 E2. congruence.
Qed.

(** Both sides of an equation between concatenations, brought to the
    right-nested form with literals unfolded. *)
Ltac text_eq :=
  repeat first [rewrite append_assoc | progress cbn [append]];
  try reflexivity.

(** [includes] decides occurrence as a contiguous piece. *)
Lemma includes_spec (s needle : string) :
  includes s needle = true <-> exists pre post, s = pre ++ needle ++ post.
Proof.
  induction s as [|ch s IH].
  - cbn [includes]. rewrite orb_false_r, prefix_append. split.
    + intros [post E]. exists "", post. exact E.
    + intros [pre [post E]]. destruct pre; [now exists post | discriminate].
  - cbn [includes]. rewrite orb_true_iff, IH, prefix_append. split.
    + intros [[post E] | [pre [post E]]].
      * exists "", post. exact E.
      * exists (String ch pre), post. simpl. now rewrite E.
    + intros [pre [post E]]. destruct pre as [|ch' pre].
      * left. now exists post.
      * right. simpl in E. injection E as _ E. now exists pre, post.
Qed.


(** Plain characters around a text neither hide nor make an unpaired
    surrogate. *)
Lemma utf8_from_start (lo hi : nat) (s : string) :
  utf8_from 0 lo hi s = utf8_from 0 128 191 s.
Proof. destruct s; reflexivity. Qed.

Lemma utf8_after_plain (a b : string) :
  all_chars (fun c => nat_of_ascii c <? 128)%nat a = true ->
  utf8_from 0 128 191 (a ++ b) = utf8_from 0 128 191 b.
Proof.
  induction a as [|c a IH]; [reflexivity|].
  cbn [all_chars append utf8_from]. intros P. apply andb_true_iff in P.
  destruct P as [Pc Pa]. rewrite Pc. exact (IH Pa).
Qed.

Lemma utf8_before_plain (a : string) (c : ascii) (b : string) :
  (nat_of_ascii c <? 128)%nat = true ->
  forall more lo hi,
    128 <= lo ->
    utf8_from more lo hi (a ++ String c b)
    = utf8_from more lo hi a && utf8_from 0 128 191 (String c b).
Proof.
  intros Pc. induction a as [|d a IH]; intros more lo hi Hlo.
  - cbn [append]. destruct more as [|k]; [reflexivity|].
    cbn [utf8_from]. rewrite Pc.
    apply Nat.ltb_lt in Pc.
    assert ((lo <=? nat_of_ascii c)%nat = false) as ->
      by (apply Nat.leb_gt; lia).
    reflexivity.
  - cbn [append]. set (tail := utf8_from 0 128 191 (String c b)) in *.
    destruct more as [|k].
    + cbn [utf8_from].
      repeat match goal with
        | |- context [if ?t then _ else _] => destruct t
        end;
        try reflexivity; apply IH; lia.
    + change (utf8_from (S k) lo hi (String d (a ++ String c b)))
        with (((lo <=? nat_of_ascii d) && (nat_of_ascii d <=? hi))%nat
              && utf8_from k 128 191 (a ++ String c b)).
      change (utf8_from (S k) lo hi (String d a))
        with (((lo <=? nat_of_ascii d) && (nat_of_ascii d <=? hi))%nat
              && utf8_from k 128 191 a).
      rewrite (IH k 128 191) by lia. now rewrite andb_assoc.
Qed.

Lemma malformed_getQuery (datasetUri datasetVariable : value) :
  malformed (_getQuery datasetUri datasetVariable)
  = malformed (ToString datasetVariable) || malformed (ToString datasetUri).
Proof.
  unfold malformed, _getQuery.
  repeat (rewrite utf8_after_plain by (vm_compute; reflexivity)).
  match goal with
  | |- context [ToString datasetVariable ++ (dq ++ ?rest)] =>
      change (dq ++ rest) with (String (ascii_of_nat 34) rest)
  end.
  rewrite utf8_before_plain by (reflexivity || lia).
  change (String (ascii_of_nat 34) ?rest) with (dq ++ rest).
  repeat (rewrite utf8_after_plain by (vm_compute; reflexivity)).
  match goal with
  | |- context [ToString datasetUri ++ (dq ++ ?rest)] =>
      change (dq ++ rest) with (String (ascii_of_nat 34) rest)
  end.
  rewrite utf8_before_plain by (reflexivity || lia).
  rewrite !negb_andb. f_equal. apply orb_false_r.
Qed.

(** ** The geometry encoders *)

Section EncoderFacts.
Context {N : Type} `{Number N}.

Lemma elementAt_of_nat {A} (a : list A) (i : nat) :
  elementAt a (Z.of_nat i) = nth_error a i.
Proof.
  unfold elementAt.
  destruct (Z.ltb_spec (Z.of_nat i) 0) as [Hneg|_]; [lia|].
  now rewrite Nat2Z.id.
Qed.

Lemma elementAt_last {A} (a : list A) (d : A) :
  a <> [] -> elementAt a (Z.of_nat (length a) - 1) = Some (last a d).
Proof.
  intros Hne.
  destruct (exists_last Hne) as [front [x E]]. subst a.
  rewrite last_last, length_app. simpl.
  replace (Z.of_nat (length front + 1) - 1)%Z with (Z.of_nat (length front))
    by lia.
  rewrite elementAt_of_nat, nth_error_app2 by lia.
  now rewrite Nat.sub_diag.
Qed.

(** The loop visits the first [n] points from the last to the first. *)
Lemma ring_loop_spec (latlngs : list (LatLng N)) (n : nat) :
  n <= length latlngs ->
  forall poly,
    ring_loop latlngs n poly
    = Normal (poly ++ each_then_comma (rev (firstn n latlngs))).
Proof.
  induction n as [|i IH]; intros Hn poly.
  - simpl. now rewrite append_nil_r.
  - destruct (nth_error latlngs i) as [p|] eqn:Hp;
      [| apply nth_error_None in Hp; lia].
    cbn [ring_loop]. unfold prop_of_index.
    rewrite elementAt_of_nat, Hp. cbn [obind].
    rewrite IH by lia.
    assert (firstn (S i) latlngs = (firstn i latlngs ++ [p])%list) as ->.
    { clear IH. revert latlngs Hn Hp.
      induction i as [|i IHi]; intros [|q l] Hn Hp; simpl in *;
        try discriminate.
      - now injection Hp as ->.
      - f_equal. apply IHi; [lia | exact Hp]. }
    rewrite rev_app_distr. cbn [rev app each_then_comma]. unfold pair_text.
    f_equal. text_eq.
Qed.

Lemma concat_snoc (ps : list (LatLng N)) (q : LatLng N) :
  String.concat ", " (List.map pair_text (ps ++ [q])%list)
  = each_then_comma ps ++ pair_text q.
Proof.
  induction ps as [|p ps IH]; [reflexivity|].
  change (String.concat ", " (List.map pair_text ((p :: ps) ++ [q])%list))
    with (String.concat ", "
            (pair_text p :: List.map pair_text (ps ++ [q])%list)).
  destruct (List.map pair_text (ps ++ [q])%list) as [|x xs] eqn:E.
  - destruct ps; discriminate.
  - cbn [String.concat]. cbn [String.concat] in IH. rewrite IH.
    cbn [each_then_comma]. text_eq.
Qed.

(** The annotator's encoder on a ring: the points in reverse order, then
    the last point of the input once more. *)
Lemma _getLocationString_ring (ring : list (LatLng N)) (d : LatLng N) :
  ring <> [] ->
  _getLocationString (Polyline ring)
  = Normal (Some (wkt_polygon (rev ring ++ [last ring d])%list)).
Proof.
  intros Hne. unfold _getLocationString, wkt_polygon.
  rewrite ring_loop_spec by lia. cbn [obind].
  unfold prop_of_index. rewrite (elementAt_last ring d Hne). cbn [obind].
  rewrite firstn_all, concat_snoc. unfold pair_text.
  do 2 f_equal. text_eq.
Qed.

(** The encoder of charme.js on a ring: the points in reverse order, then a
    pair made of the longitude of the last input point and the latitude of
    the first. *)
Lemma getLocationString_ring (ring : list (LatLng N)) (d : LatLng N) :
  ring <> [] ->
  getLocationString (Polyline ring)
  = Normal (Some (wkt_polygon
      (rev ring ++ [mkLatLng (lat (hd d ring)) (lng (last ring d))])%list)).
Proof.
  intros Hne. unfold getLocationString, wkt_polygon.
  rewrite ring_loop_spec by lia. cbn [obind].
  unfold prop_of_index. rewrite (elementAt_last ring d Hne). cbn [obind].
  destruct ring as [|p ring]; [congruence|].
  change (elementAt (p :: ring) 0) with (Some p). cbn [obind hd].
  rewrite firstn_all, concat_snoc. unfold pair_text. cbn [lat lng].
  do 2 f_equal. text_eq.
Qed.

Lemma rev_starts_with_last (ring : list (LatLng N)) (d : LatLng N) :
  ring <> [] -> hd d (rev ring) = last ring d.
Proof.
  intros Hne. destruct (exists_last Hne) as [front [x E]]. subst ring.
  now rewrite rev_app_distr, last_last.
Qed.

End EncoderFacts.

Section EncoderOutcomes.
Context {N : Type} `{Number N}.

(** On a ring of at least three points the annotator's encoder emits the
    input points in reverse order and closes the ring with the pair it
    emitted first. *)
Lemma _getLocationString_closed_reversed (ring : list (LatLng N))
  (d : LatLng N) :
  3 <= length ring ->
  exists emitted,
    _getLocationString (Polyline ring) = Normal (Some (wkt_polygon emitted))
    /\ emitted = (rev ring ++ [hd d emitted])%list
    /\ hd d emitted = last emitted d.
Proof.
  intros Hlen.
  assert (ring <> []) as Hne by (destruct ring; [simpl in Hlen; lia | congruence]).
  exists (rev ring ++ [last ring d])%list.
  assert (hd d (rev ring ++ [last ring d])%list = last ring d) as Hhd.
  { rewrite <- (rev_starts_with_last ring d Hne).
    destruct (rev ring) as [|x xs] eqn:E; [|reflexivity].
    apply (f_equal (@length _)) in E. rewrite length_rev in E.
    simpl in E. lia. }
  split; [apply _getLocationString_ring; exact Hne|].
  split; [now rewrite Hhd | now rewrite Hhd, last_last].
Qed.

(** C8 (as the code has it): neither encoder rejects a short ring or an
    unknown kind of layer.  A marker is encoded as a point; every ring with
    at least one point is encoded as a polygon, also with fewer than three
    points; a layer that is neither a marker nor a polyline gives
    [undefined] without an exception; only the empty ring raises, a
    [TypeError] from reading a property of [undefined]. *)
Theorem encoders_reject_nothing_but_the_empty_ring (shape : Layer N) :
  match shape with
  | Marker latlng =>
      _getLocationString shape
        = Normal (Some ("POINT (" ++ pair_text latlng ++ ")"))
      /\ getLocationString shape
        = Normal (Some ("POINT (" ++ pair_text latlng ++ ")"))
  | Polyline [] =>
      _getLocationString shape
        = Thrown (TypeError "Cannot read properties of undefined")
      /\ getLocationString shape
        = Thrown (TypeError "Cannot read properties of undefined")
  | Polyline (p :: rest) =>
      _getLocationString shape
        = Normal (Some (wkt_polygon
            (rev (p :: rest) ++ [last (p :: rest) p])%list))
      /\ getLocationString shape
        = Normal (Some (wkt_polygon
            (rev (p :: rest)
             ++ [mkLatLng (lat p) (lng (last (p :: rest) p))])%list))
  | Circle _ _ =>
      _getLocationString shape = Normal undefined
      /\ getLocationString shape = Normal undefined
  end.
Proof.
  destruct shape as [latlng | [|p rest] | c r].
  - unfold _getLocationString, getLocationString, pair_text.
    split; do 2 f_equal; text_eq.
  - split; reflexivity.
  - split.
    + apply _getLocationString_ring. discriminate.
    + apply (getLocationString_ring (p :: rest) p). discriminate.
  - split; reflexivity.
Qed.

End EncoderOutcomes.

(** C2: on the triangle, [getLocationString] of charme.js emits the three
    points in reverse order and then the pair (60, 10), the longitude of the
    last corner with the latitude of the first, so the ring does not end with
    the pair it starts with; [_getLocationString] of the annotator closes the
    same ring with (60, 50), the pair emitted first. *)
Theorem getLocationString_leaves_ring_open :
  getLocationString (Polyline triangle)
    = Normal (Some "POLYGON ((60 50, 40 30, 20 10, 60 10))")
  /\ _getLocationString (Polyline triangle)
    = Normal (Some "POLYGON ((60 50, 40 30, 20 10, 60 50))")
  /\ 3 <= length triangle.
Proof. repeat split; simpl; lia. Qed.

(** A ring of two points and a circle are encoded without any rejection: the
    first as a polygon of three pairs, the second as [undefined]. *)
Lemma short_ring_and_circle_not_rejected :
  _getLocationString (Polyline [mkLatLng 10 20; mkLatLng 30 40]%Z)
    = Normal (Some "POLYGON ((40 30, 20 10, 40 30))")
  /\ getLocationString (Polyline [mkLatLng 10 20; mkLatLng 30 40]%Z)
    = Normal (Some "POLYGON ((40 30, 20 10, 40 10))")
  /\ _getLocationString (Circle (mkLatLng 10 20) 5)%Z = Normal undefined
  /\ getLocationString (Circle (mkLatLng 10 20) 5)%Z = Normal undefined.
Proof. repeat split. Qed.

(** ** The query builders *)

(** C5: for every dataset URI and variable name, [_getQuery] is the prefix
    declarations, a projection on exactly the columns wkt, text, firstname,
    surname, email, time and account, the fixed join, and the two filters
    [?variableName="{variable}"] and [str(?datasetUri)="{uri}"] with the
    caller's strings between the quotes unchanged, whatever characters they
    contain; no other projection or filter occurs in the fixed parts. *)
Theorem _getQuery_columns_and_filters (datasetUri variableName : string) :
  _getQuery (Some datasetUri) (Some variableName)
  = sparql_prefixes
    ++ select_clause
         ["wkt"; "text"; "firstname"; "surname"; "email"; "time"; "account"]
    ++ "WHERE { " ++ dataset_patterns
    ++ "FILTER(?variableName=" ++ dq ++ variableName ++ dq ++ ") . "
    ++ "FILTER(str(?datasetUri)=" ++ dq ++ datasetUri ++ dq ++ ") . "
    ++ "} "
  /\ includes (sparql_prefixes ++ dataset_patterns) "SELECT" = false
  /\ includes (sparql_prefixes ++ dataset_patterns) "FILTER" = false.
Proof. repeat split. Qed.

Section ViewportFacts.
Context {N : Type} `{Number N}.

(** C6: once the page's map exists, [getQuery] is the prefix declarations,
    a projection on exactly the columns text, name and wkt, the fixed join,
    an intersection filter on the polygon of the four viewport corners in
    the order south-west, north-west, north-east, south-east and back, and
    a final [LIMIT 100]; maps with the same bounds give the same text. *)
Theorem getQuery_corners_and_limit (map1 map2 : LeafletMap N)
  (mapObj1 mapObj2 : option (LeafletMap N)) :
  getBounds map1 = getBounds map2 ->
  getQuery (Some map1) mapObj1
  = Normal (sparql_prefixes
      ++ select_clause ["text"; "name"; "wkt"]
      ++ "WHERE { " ++ viewport_patterns
      ++ "    FILTER(geof:sfIntersects(?wkt, " ++ dq ++ "POLYGON(("
      ++ String.concat "," (List.map pair_text (corners (getBounds map1)))
      ++ "))" ++ dq ++ "^^geo:wktLiteral)) "
      ++ "} "
      ++ "LIMIT 100")
  /\ getQuery (Some map1) mapObj1 = getQuery (Some map2) mapObj2.
Proof.
  intros Hb. split.
  - unfold getQuery, corners, pair_text. cbn [List.map String.concat lat lng].
    f_equal. text_eq.
  - unfold getQuery. now rewrite Hb.
Qed.

End ViewportFacts.

Lemma getQuery_corners_and_limit_witness :
  getBounds viewport = getBounds viewport
  /\ getQuery (Some viewport) None
     = Normal (sparql_prefixes
         ++ select_clause ["text"; "name"; "wkt"]
         ++ "WHERE { " ++ viewport_patterns
         ++ "    FILTER(geof:sfIntersects(?wkt, " ++ dq
         ++ "POLYGON((0 0,0 10,10 10,10 0,0 0))" ++ dq
         ++ "^^geo:wktLiteral)) } LIMIT 100")
  /\ getQuery (Some viewport) None = getQuery (Some viewport) (Some viewport).
Proof.
  split; [reflexivity|].
  destruct (getQuery_corners_and_limit viewport viewport None (Some viewport)
              eq_refl) as [T D].
  split; [|exact D].
  rewrite T. reflexivity.
Defined.

(** ** The annotation document builders *)

(** With the three author inputs of the form left blank, the document of
    [getTurtle] still has the author triples, with empty values. *)
Lemma getTurtle_blank_author :
  includes
    (getTurtle "2016-03-01T12:00:00.000Z" "" "" ""
       "http://dataset/uri" "selectedVar" (Some "POINT (-3 55)") "hot")
    ("    oa:annotatedBy <> ;") = true
  /\ includes
    (getTurtle "2016-03-01T12:00:00.000Z" "" "" ""
       "http://dataset/uri" "selectedVar" (Some "POINT (-3 55)") "hot")
    ("<> a foaf:Person ;    foaf:mbox <mailto:> ;    foaf:name "
       ++ dq ++ dq ++ " .") = true.
Proof. split; vm_compute; reflexivity. Qed.

(** C7 (as the code has it): [getTurtle] writes the author into every
    document, as the value of [oa:annotatedBy] and as a [foaf:Person] with
    mailbox and name, using the three inputs as they are, blank or not; the
    document of [_getTurtle] is a fixed frame around the dataset URI, the
    comment, the variable name and the location, and no part of the frame
    names an author. *)
Theorem author_always_or_never_written :
  (forall now name email authorUri datasetUri datasetVar location comment,
      exists pre mid post,
        getTurtle now name email authorUri datasetUri datasetVar location
          comment
        = pre ++ "    oa:annotatedBy <" ++ authorUri ++ "> ;" ++ mid
              ++ author_triples authorUri email name ++ post)
  /\ exists t0 t1 t2 t3 t4 t5,
      (forall datasetUri datasetVar location comment,
          _getTurtle datasetUri datasetVar location comment
          = t0 ++ ToString datasetUri ++ t1 ++ ToString datasetUri ++ t2
               ++ comment ++ t3 ++ ToString datasetVar ++ t4
               ++ ToString location ++ t5)
      /\ existsb mentions_author [t0; t1; t2; t3; t4; t5] = false.
Proof.
  split.
  - intros now name email authorUri datasetUri datasetVar location comment.
    exists
      ("@prefix chnode: <http://localhost/> ." ++
       "@prefix charme: <http://purl.org/voc/charme#> ." ++
       "@prefix oa: <http://www.w3.org/ns/oa#> ." ++
       "@prefix foaf: <http://xmlns.com/foaf/0.1/> ." ++
       "@prefix prov: <http://www.w3.org/ns/prov#> ." ++
       "@prefix xsd: <http://www.w3.org/2001/XML-Schema#> ." ++
       "@prefix geo: <http://www.opengis.net/ont/geosparql#> ." ++
       "@prefix cnt: <http://www.w3.org/2011/content#> ." ++
       "@prefix dc: <http://purl.org/dc/elements/1.1/> ." ++
       "@prefix dctypes: <http://purl.org/dc/dcmitype/> ." ++
       "<chnode:annoID> a oa:Annotation ;" ++
       "    oa:annotatedAt " ++ dq ++ now ++ dq ++ " ;"),
      ("    oa:hasTarget <chnode:targetID> ;" ++
       "    oa:hasBody <chnode:bodyID> ;" ++
       "    oa:motivatedBy oa:linking ."),
      ("<chnode:targetID> a charme:DatasetSubset ;" ++
       "    oa:hasSource <" ++ datasetUri ++ "> ;" ++
       "    oa:hasSelector <chnode:subsetSelectorID> ." ++
       "<" ++ datasetUri ++ "> a charme:dataset ." ++
       "<chnode:subsetSelectorID> a charme:SubsetSelector ;" ++
       "    charme:hasVariable <chnode:variableID-01> ;" ++
       "    charme:hasSpatialExtent <chnode:spatialExtentID-01> ." ++
       "<chnode:bodyID> a cnt:ContentAsText, dctypes:Text ;" ++
       "    cnt:chars " ++ dq ++ comment ++ dq ++ " ;" ++
       "    dc:format " ++ dq ++ "text/plain" ++ dq ++ " .    " ++
       "<chnode:variableID-01> a charme:Variable ;" ++
       "    charme:hasInternalName " ++ dq ++ datasetVar ++ dq ++ " ." ++
       "<chnode:spatialExtentID-01> a charme:SpatialExtent ;" ++
       "    geo:hasGeometry <chnode:geometryID-01> ." ++
       "<chnode:geometryID-01> a geo:Geometry ;" ++
       "    geo:asWKT " ++ dq ++ ToString location ++ dq
         ++ "^^geo:wktLiteral .").
    unfold getTurtle, author_triples. text_eq.
  - exists
      ("@prefix chnode: <http://localhost/> ." ++
       "@prefix charme: <http://purl.org/voc/charme#> ." ++
       "@prefix oa: <http://www.w3.org/ns/oa#> ." ++
       "@prefix prov: <http://www.w3.org/ns/prov#> ." ++
       "@prefix xsd: <http://www.w3.org/2001/XML-Schema#> ." ++
       "@prefix geo: <http://www.opengis.net/ont/geosparql#> ." ++
       "@prefix cnt: <http://www.w3.org/2011/content#> ." ++
       "@prefix dc: <http://purl.org/dc/elements/1.1/> ." ++
       "@prefix dctypes: <http://purl.org/dc/dcmitype/> ." ++
       "<chnode:annoID> a oa:Annotation ;" ++
       "    oa:hasTarget <chnode:targetID> ;" ++
       "    oa:hasBody <chnode:bodyID> ;" ++
       "    oa:motivatedBy oa:linking ." ++
       "<chnode:targetID> a charme:DatasetSubset ;" ++
       "    oa:hasSource <"),
      ("> ;" ++
       "    oa:hasSelector <chnode:subsetSelectorID> ." ++
       "<"),
      ("> a charme:dataset ." ++
       "<chnode:subsetSelectorID> a charme:SubsetSelector ;" ++
       "    charme:hasVariable <chnode:variableID-01> ;" ++
       "    charme:hasSpatialExtent <chnode:spatialExtentID-01> ." ++
       "<chnode:bodyID> a cnt:ContentAsText, dctypes:Text ;" ++
       "    cnt:chars " ++ dq),
      (dq ++ " ;" ++
       "    dc:format " ++ dq ++ "text/plain" ++ dq ++ " .    " ++
       "<chnode:variableID-01> a charme:Variable ;" ++
       "    charme:hasInternalName " ++ dq),
      (dq ++ " ." ++
       "<chnode:spatialExtentID-01> a charme:SpatialExtent ;" ++
       "    geo:hasGeometry <chnode:geometryID-01> ." ++
       "<chnode:geometryID-01> a geo:Geometry ;" ++
       "    geo:asWKT " ++ dq),
      (dq ++ "^^geo:wktLiteral .").
    split.
    + intros datasetUri datasetVar location comment.
      unfold _getTurtle. text_eq.
    + vm_compute. reflexivity.
Qed.

(** ** The annotator *)

(** The texts stay folded while the control flow is simplified. *)
Arguments _getQuery : simpl never.
Arguments _getTurtle : simpl never.
Arguments encodeURIComponent : simpl never.
Arguments malformed : simpl never.
Arguments append : simpl never.
Arguments toggleAnnotations : simpl never.

Section ControllerFacts.
Context {N : Type} `{Number N}.

(** The selection can be written into a URL exactly when the query can. *)
Lemma selection_encodable_query (a : CharmeAnnotator N) :
  malformed (_getQuery (datasetUri a) (datasetVar a))
  = negb (selection_encodable a).
Proof.
  unfold selection_encodable. rewrite malformed_getQuery.
  destruct (malformed (ToString (datasetVar a))),
    (malformed (ToString (datasetUri a))); reflexivity.
Qed.

(** The three ways a call of [toggleAnnotations] can go. *)
Lemma toggleAnnotations_on (w : World N) :
  annotationsOn (self w) = true ->
  toggleAnnotations w
  = (Normal tt,
     on_self (with_annotationsOn false)
       (on_self (with_annotationsGroup []) (count_toggle w))).
Proof.
  intros On. unfold toggleAnnotations, bind, modify, gets. cbn.
  now rewrite On.
Qed.

Lemma toggleAnnotations_off (w : World N) :
  annotationsOn (self w) = false ->
  selection_encodable (self w) = true ->
  toggleAnnotations w
  = (Normal tt,
     on_self (with_annotationsOn true)
       (push_request (query_request (self w)) (count_toggle w))).
Proof.
  intros Off Enc.
  unfold toggleAnnotations, call_encodeURIComponent, lift, fetch, bind,
    modify, gets. cbn.
  now rewrite Off, selection_encodable_query, Enc.
Qed.

Lemma toggleAnnotations_throws (w : World N) :
  annotationsOn (self w) = false ->
  selection_encodable (self w) = false ->
  toggleAnnotations w = (Thrown (URIError "URI malformed"), count_toggle w).
Proof.
  intros Off Enc.
  unfold toggleAnnotations, call_encodeURIComponent, lift, fetch, bind,
    modify, gets. cbn.
  now rewrite Off, selection_encodable_query, Enc.
Qed.

(** With a selection that can be encoded a call returns, counts as one and
    negates the flag; the selection is not touched. *)
Lemma toggleAnnotations_flips (w : World N) :
  selection_encodable (self w) = true ->
  toggleAnnotations w = (Normal tt, exec toggleAnnotations w)
  /\ toggleCalls (exec toggleAnnotations w) = S (toggleCalls w)
  /\ annotationsOn (self (exec toggleAnnotations w))
     = negb (annotationsOn (self w))
  /\ selection_encodable (self (exec toggleAnnotations w)) = true.
Proof.
  intros Enc. unfold exec.
  destruct (annotationsOn (self w)) eqn:On.
  - rewrite (toggleAnnotations_on w On). now repeat split.
  - rewrite (toggleAnnotations_off w On Enc). now repeat split.
Qed.

Lemma toggleAnnotations_parity (w : World N) :
  parity w ->
  selection_encodable (self w) = true ->
  parity (exec toggleAnnotations w).
Proof.
  unfold parity. intros E Enc.
  destruct (toggleAnnotations_flips w Enc) as [_ [C [F _]]].
  now rewrite F, C, E, Nat.odd_succ, <- Nat.negb_odd.
Qed.

(** What two calls in a row do to the invariant. *)
Lemma toggled_twice (w : World N) :
  parity w ->
  selection_encodable (self w) = true ->
  toggleAnnotations w = (Normal tt, exec toggleAnnotations w)
  /\ toggleAnnotations (exec toggleAnnotations w)
     = (Normal tt, exec toggleAnnotations (exec toggleAnnotations w))
  /\ parity (exec toggleAnnotations (exec toggleAnnotations w))
  /\ selection_encodable
       (self (exec toggleAnnotations (exec toggleAnnotations w))) = true.
Proof.
  intros P Enc.
  destruct (toggleAnnotations_flips w Enc) as [R [_ [_ Enc']]].
  destruct (toggleAnnotations_flips _ Enc') as [R' [_ [_ Enc'']]].
  repeat split; try assumption.
  apply toggleAnnotations_parity; [|exact Enc'].
  apply toggleAnnotations_parity; assumption.
Qed.

(** Every handler keeps the parity as long as the selections can be
    encoded: the ones that call [toggleAnnotations] without a click on the
    button call it twice. *)
Lemma step_parity (w : World N) (e : Event N) :
  parity w ->
  selection_encodable (self w) = true ->
  selects_encodable e = true ->
  parity (step w e) /\ selection_encodable (self (step w e)) = true.
Proof.
  intros P Enc Sel. unfold step, exec. destruct e; cbn [handle].
  - unfold toggleAnnotationsButton_click, isAnnotationsOn, bind, gets, ret.
    destruct (toggleAnnotations_flips w Enc) as [R [_ [_ Enc']]].
    rewrite R. cbn. split; [now apply toggleAnnotations_parity | exact Enc'].
  - unfold selectDataset, setDatasetDetails, isAnnotationsOn, bind, gets,
      ret, modify. cbn.
    destruct (annotationsOn (self w)) eqn:E; cbn;
      [|split; [exact P | exact Sel]].
    match goal with
    | |- context [toggleAnnotations ?w1] =>
        assert (parity w1) as P1 by exact P;
        assert (selection_encodable (self w1) = true) as Enc1 by exact Sel;
        destruct (toggled_twice w1 P1 Enc1) as [R [R' [P2 Enc2]]]
    end.
    rewrite R, R'. cbn. split; assumption.
  - unfold charmeLogin, getToken, bind, gets, ret, modify.
    destruct (JSO.saved (charmeOAuth (self w))); split; assumption.
  - unfold charmeLogout, fire, bind, gets, throw, modify. cbn.
    destruct (drawControl (self w)); [|split; assumption].
    destruct (drawControlShown (map (self w))); split; assumption.
  - split; [exact P | exact Sel].
  - split; assumption.
  - unfold draw_created, bind, gets, ret, modify. cbn.
    destruct (drawCreatedListener (map (self w))); split; assumption.
  - split; assumption.
  - unfold bind, gets. cbn.
    destruct (find _ (featureGroup w)) as [d|]; [|split; assumption].
    unfold annoSubmit_click, lift, bind, gets, ret, modify, fetch, throw.
    destruct (_getLocationString (layer d)); [|split; assumption]. cbn.
    destruct (truthy (token (self w))); cbn; [split; assumption|].
    destruct (jso w) as [j|]; [|split; assumption].
    unfold getToken, modify. destruct (JSO.saved j); split; assumption.
  - unfold bind, gets. cbn.
    destruct (drawCreatedListener (map (self w))); [|split; assumption].
    unfold annoSubmit_click, lift, bind, gets, ret, modify, fetch, throw.
    destruct (_getLocationString (layer drawEvent)); [|split; assumption].
    cbn. destruct (truthy (token (self w))); cbn; [split; assumption|].
    destruct (jso w) as [j|]; [|split; assumption].
    unfold getToken, modify. destruct (JSO.saved j); split; assumption.
  - unfold resolve, bind, gets, modify. cbn.
    destruct (in_flight id w) as [r|]; [|split; assumption].
    destruct (continuation r); cbn.
    + unfold fire, ret, modify.
      destruct (userdetails_of reply); split; assumption.
    + unfold render, bind, gets, ret, modify.
      destruct reply; split; assumption.
    + unfold caught, refresh, bind, gets, ret. cbn.
      destruct (annotationsOn (self w)) eqn:E; cbn; [|split; assumption].
      match goal with
      | |- context [toggleAnnotations ?w1] =>
          assert (parity w1) as P1 by exact P;
          assert (selection_encodable (self w1) = true) as Enc1 by exact Enc;
          destruct (toggled_twice w1 P1 Enc1) as [R [R' [P2 Enc2]]]
      end.
      rewrite R, R'. cbn. split; assumption.
  - unfold reject, bind, gets, modify. cbn.
    destruct (in_flight id w); split; assumption.
Qed.

Lemma run_parity (es : list (Event N)) (w : World N) :
  parity w ->
  selection_encodable (self w) = true ->
  forallb selects_encodable es = true ->
  parity (run es w) /\ selection_encodable (self (run es w)) = true.
Proof.
  revert w. induction es as [|e es IH]; intros w P Enc Sel; [now split|].
  cbn [forallb] in Sel. apply andb_true_iff in Sel. destruct Sel as [Se Ses].
  destruct (step_parity w e P Enc Se) as [P' Enc'].
  exact (IH (step w e) P' Enc' Ses).
Qed.

(** In a session of button clicks and settlements, each click is one call,
    whether the call returns or throws. *)
Lemma step_counts_click (w : World N) (e : Event N) :
  only_queries w ->
  button_or_settlement e = true ->
  only_queries (step w e)
  /\ toggleCalls (step w e) = button_clicks [e] + toggleCalls w.
Proof.
  intros Q B. unfold step, exec. destruct e; try discriminate B; cbn [handle].
  - unfold toggleAnnotationsButton_click, isAnnotationsOn, toggleAnnotations,
      call_encodeURIComponent, lift, fetch, bind, gets, ret, modify.
    unfold only_queries. cbn.
    destruct (annotationsOn (self w)); cbn; [split; [exact Q | reflexivity]|].
    destruct (malformed _); cbn; (split; [|reflexivity]); [exact Q|].
    apply Forall_app. split; [exact Q|].
    constructor; [discriminate | constructor].
  - unfold resolve, bind, gets, modify. cbn.
    destruct (in_flight id w) as [r|] eqn:E; [|split; [exact Q | reflexivity]].
    assert (continuation r <> ThenRefresh) as Hr.
    { unfold in_flight in E.
      destruct (existsb (Nat.eqb id) (settled w)); [discriminate|].
      apply nth_error_In in E.
      unfold only_queries in Q. rewrite Forall_forall in Q. now apply Q. }
    destruct (continuation r); try congruence.
    + unfold fire, ret, modify.
      destruct (userdetails_of reply); split; try exact Q; reflexivity.
    + unfold render, bind, gets, ret, modify.
      destruct reply; split; try exact Q; reflexivity.
  - unfold reject, bind, gets, modify. cbn.
    destruct (in_flight id w); split; try exact Q; reflexivity.
Qed.

Lemma run_counts_clicks (es : list (Event N)) (w : World N) :
  only_queries w ->
  forallb button_or_settlement es = true ->
  toggleCalls (run es w) = button_clicks es + toggleCalls w.
Proof.
  revert w. induction es as [|e es IH]; intros w Q B; [reflexivity|].
  cbn [forallb] in B. apply andb_true_iff in B. destruct B as [Be Bes].
  destruct (step_counts_click w e Q Be) as [Q' C].
  cbn [run fold_left]. fold (run es (step w e)).
  rewrite (IH _ Q' Bes), C.
  destruct e; try discriminate Be; cbn [button_clicks]; lia.
Qed.

(** C10 (amended): after any sequence of events on a new annotator (clicks,
    calls of [setDatasetDetails], drawn shapes, replies and failures of any
    request, in any order) in which every selected dataset URI and variable
    name can be URL-encoded,
    [isAnnotationsOn] returns true exactly when [toggleAnnotations] has been
    called an odd number of times; each call returns normally, adds one to
    the count and negates the flag, whatever requests are pending, answered
    or failed.  When the events are only clicks on the toggle button and
    replies or failures of requests, the calls are the clicks. *)
Theorem isAnnotationsOn_iff_odd_calls (charmeUrl : string)
  (hashToken : value) (storage : JSO.t) (jso : option JSO.t)
  (es : list (Event N)) :
  forallb selects_encodable es = true ->
  let w := run es (new_CharmeAnnotator charmeUrl hashToken storage jso) in
  isAnnotationsOn w = (Normal (Nat.odd (toggleCalls w)), w)
  /\ toggleCalls (new_CharmeAnnotator (N:=N) charmeUrl hashToken storage jso)
     = 0
  /\ toggleAnnotations w = (Normal tt, exec toggleAnnotations w)
  /\ toggleCalls (exec toggleAnnotations w) = S (toggleCalls w)
  /\ annotationsOn (self (exec toggleAnnotations w))
     = negb (annotationsOn (self w))
  /\ (forallb button_or_settlement es = true ->
      isAnnotationsOn w = (Normal (Nat.odd (button_clicks es)), w)).
Proof.
  intros Sel.
  assert (toggleCalls
            (new_CharmeAnnotator (N:=N) charmeUrl hashToken storage jso) = 0
          /\ parity
            (new_CharmeAnnotator (N:=N) charmeUrl hashToken storage jso)
          /\ selection_encodable
               (self (new_CharmeAnnotator (N:=N) charmeUrl hashToken storage
                        jso)) = true
          /\ only_queries
            (new_CharmeAnnotator (N:=N) charmeUrl hashToken storage jso))
    as [Hzero [Hinit [Henc Hq]]].
  { unfold parity, only_queries, selection_encodable, new_CharmeAnnotator.
    destruct (JSO.checkToken (JSO.callback hashToken storage));
      repeat split; cbn; repeat constructor; discriminate. }
  intros w.
  destruct (run_parity es _ Hinit Henc Sel) as [Hw Hencw]. fold w in Hw, Hencw.
  assert (forallb button_or_settlement es = true ->
          toggleCalls w = button_clicks es) as Hc.
  { intros B. unfold w. rewrite (run_counts_clicks es _ Hq B), Hzero. lia. }
  clearbody w. unfold parity in Hw.
  destruct (toggleAnnotations_flips w Hencw) as [R [C [F _]]].
  split; [|split; [|split; [|split; [|split]]]].
  - unfold isAnnotationsOn, gets. now rewrite Hw.
  - exact Hzero.
  - exact R.
  - exact C.
  - exact F.
  - intros B. unfold isAnnotationsOn, gets. now rewrite Hw, (Hc B).
Qed.

End ControllerFacts.

Section ToggleAndReplies.
Context {N : Type} `{Number N}.

(** C9 (amended): called with annotations on, [toggleAnnotations] empties
    the annotations group and sets the flag off within the call, and sends
    nothing: the list of requests is unchanged.  Called with annotations off
    and a selection that can be URL-encoded, it returns with the flag
    already on while the one request it sent is still unanswered and nothing
    has been rendered.  Called with annotations off and a dataset URI or
    variable name that has an unpaired surrogate, it throws a [URIError]
    before anything is sent, and the flag stays off. *)
Theorem toggleAnnotations_flips_within_the_call (w : World N) :
  (annotationsOn (self w) = true ->
     exists w',
       toggleAnnotations w = (Normal tt, w')
       /\ annotationsGroup (self w') = []
       /\ annotationsOn (self w') = false
       /\ requests w' = requests w
       /\ settled w' = settled w)
  /\ (annotationsOn (self w) = false ->
      selection_encodable (self w) = true ->
     exists w',
       toggleAnnotations w = (Normal tt, w')
       /\ annotationsOn (self w') = true
       /\ requests w' = (requests w ++ [query_request (self w)])%list
       /\ settled w' = settled w
       /\ annotationsGroup (self w') = annotationsGroup (self w))
  /\ (annotationsOn (self w) = false ->
      selection_encodable (self w) = false ->
     exists w',
       toggleAnnotations w = (Thrown (URIError "URI malformed"), w')
       /\ annotationsOn (self w') = false
       /\ requests w' = requests w
       /\ settled w' = settled w
       /\ annotationsGroup (self w') = annotationsGroup (self w)).
Proof.
  split; [|split].
  - intros On. rewrite (toggleAnnotations_on w On).
    eexists. repeat split.
  - intros Off Enc. rewrite (toggleAnnotations_off w Off Enc).
    eexists. repeat split.
  - intros Off Enc. rewrite (toggleAnnotations_throws w Off Enc).
    eexists. repeat split. exact Off.
Qed.

(** Nothing the user does withdraws a request: toggling and selecting a
    dataset leave every unanswered request unanswered. *)
Lemma toggleAnnotations_keeps_in_flight (w : World N) (id : nat)
  (r : Request) :
  in_flight id w = Some r -> in_flight id (exec toggleAnnotations w) = Some r.
Proof.
  unfold in_flight, exec, toggleAnnotations, call_encodeURIComponent, lift,
    bind, modify, gets, fetch.
  cbn. destruct (annotationsOn (self w)); cbn; [trivial|].
  destruct (malformed _); cbn; [trivial|].
  destruct (existsb (Nat.eqb id) (settled w)); [discriminate|].
  intros E. rewrite nth_error_app1; [exact E|].
  apply nth_error_Some. congruence.
Qed.

Lemma setDatasetDetails_keeps_in_flight (w : World N) (id : nat)
  (uri variable : string) :
  in_flight id (exec (setDatasetDetails uri variable) w) = in_flight id w.
Proof. reflexivity. Qed.

(** C1 (as the code has it): a reply to a query of [toggleAnnotations] is
    rendered whenever it arrives.  While the request is unanswered, its
    feature collection is added to the annotations group as one overlay per
    feature, whatever the visibility flag and the dataset selection are at
    that moment, and neither of them changes; toggling off and selecting
    another dataset do not withdraw the request. *)
Theorem reply_rendered_whatever_the_state (w : World N) (id : nat)
  (r : Request) (resp : list (Feature N)) :
  in_flight id w = Some r ->
  continuation r = ThenRender ->
  (exists w',
      resolve id (FeatureCollection resp) w = (Normal tt, w')
      /\ annotationsGroup (self w')
         = (annotationsGroup (self w)
            ++ [List.map (onEachFeature (formatAnnotation (self w))) resp])%list
      /\ annotationsOn (self w') = annotationsOn (self w)
      /\ datasetUri (self w') = datasetUri (self w)
      /\ datasetVar (self w') = datasetVar (self w))
  /\ in_flight id (exec toggleAnnotations w) = Some r
  /\ (forall uri variable,
        in_flight id (exec (setDatasetDetails uri variable) w) = Some r).
Proof.
  intros Hr Hk. split; [|split].
  - unfold resolve, bind, gets, modify. cbn. rewrite Hr, Hk.
    unfold render, bind, gets, modify. cbn.
    eexists. repeat split.
  - now apply toggleAnnotations_keeps_in_flight.
  - intros uri variable. now rewrite setDatasetDetails_keeps_in_flight.
Qed.

End ToggleAndReplies.
(** The query for the first dataset is still unanswered when the user picks
    another dataset (which toggles off and on again) or toggles off; its
    reply then arrives and is rendered: next to the new dataset's request in
    the first case, with the annotations switched off in the second. *)
Lemma stale_reply_is_rendered :
  (let w := run [Click_datasetButton cci "analysed_sst";
                 Click_toggleAnnotationsButton;
                 Click_datasetButton lc "land_cover"] visitor in
   option_map url (in_flight 0 w)
     = Some (node ++ "sparql?format=GeoJSON&query="
               ++ encodeURIComponent
                    (_getQuery (Some cci) (Some "analysed_sst")))
   /\ in_flight 1 w = Some (query_request (self w))
   /\ datasetUri (self w) = Some lc
   /\ datasetVar (self w) = Some "land_cover"
   /\ annotationsOn (self w) = true
   /\ annotationsGroup (self w) = []
   /\ annotationsGroup
        (self (step w (Resolved 0 (FeatureCollection [hot]))))
      = [[hot_overlay]])
  /\ (let w := run [Click_datasetButton cci "analysed_sst";
                    Click_toggleAnnotationsButton;
                    Click_toggleAnnotationsButton] visitor in
      annotationsOn (self w) = false
      /\ annotationsGroup (self w) = []
      /\ annotationsGroup
           (self (step w (Resolved 0 (FeatureCollection [hot]))))
         = [[hot_overlay]]).
Proof. vm_compute. repeat split. Qed.

(** After [setDatasetDetails('\ud800', 'v')] one click on the button is one
    call of [toggleAnnotations]: the call throws a [URIError], nothing is
    sent, and [isAnnotationsOn] returns false after an odd number of calls. *)
Lemma odd_calls_with_annotations_off :
  let es := [Call_setDatasetDetails lone_surrogate "v";
             Click_toggleAnnotationsButton] in
  let w := run es visitor in
  button_clicks es = 1
  /\ toggleCalls unencodable = 0
  /\ toggleAnnotations unencodable
     = (Thrown (URIError "URI malformed"), w)
  /\ toggleCalls w = 1
  /\ isAnnotationsOn w = (Normal false, w)
  /\ requests w = [].
Proof. vm_compute. repeat split. Qed.

(** A session with a dataset selection: a click, a selection with
    annotations on (two calls), two more clicks; five calls, annotations on.
    And three clicks on the button while the first query fails and the
    second is answered: annotations are on. *)
Lemma isAnnotationsOn_iff_odd_calls_witness :
  (let es := [Click_toggleAnnotationsButton;
              Click_datasetButton cci "analysed_sst";
              Click_toggleAnnotationsButton;
              Click_toggleAnnotationsButton] in
   forallb selects_encodable es = true
   /\ toggleCalls (run es visitor) = 5
   /\ isAnnotationsOn (run es visitor) = (Normal true, run es visitor))
  /\ (let es := [Click_toggleAnnotationsButton; Rejected 0;
                 Click_toggleAnnotationsButton; Click_toggleAnnotationsButton;
                 Resolved 1 (FeatureCollection [hot])] in
      forallb selects_encodable es = true
      /\ forallb button_or_settlement es = true
      /\ button_clicks es = 3
      /\ isAnnotationsOn (run es visitor) = (Normal true, run es visitor)).
Proof.
  split; intros es.
  - destruct (isAnnotationsOn_iff_odd_calls node None (JSO.mk None) None es
                eq_refl) as [Odd _].
    split; [reflexivity|]. split; [reflexivity|]. exact Odd.
  - destruct (isAnnotationsOn_iff_odd_calls node None (JSO.mk None) None es
                eq_refl) as [_ [_ [_ [_ [_ Clicks]]]]].
    split; [reflexivity|]. split; [reflexivity|]. split; [reflexivity|].
    exact (Clicks eq_refl).
Defined.

Lemma reply_rendered_whatever_the_state_witness :
  let w := run [Click_datasetButton cci "analysed_sst";
                Click_toggleAnnotationsButton;
                Click_toggleAnnotationsButton] visitor in
  let r := query_request
             (with_dataset (Some cci) (Some "analysed_sst") (self visitor)) in
  in_flight 0 w = Some r
  /\ continuation r = ThenRender
  /\ annotationsOn (self w) = false
  /\ exists w',
      resolve 0 (FeatureCollection [hot]) w = (Normal tt, w')
      /\ annotationsGroup (self w') = [[hot_overlay]].
Proof.
  intros w r.
  assert (in_flight 0 w = Some r) as Hr by (vm_compute; reflexivity).
  assert (continuation r = ThenRender) as Hk by reflexivity.
  repeat split; try assumption.
  destruct (reply_rendered_whatever_the_state w 0 r [hot] Hr Hk)
    as [[w' [E [G _]]] _].
  exists w'. split; [exact E|]. rewrite G. reflexivity.
Defined.

(** With the dataset URI ['\ud800'] selected and annotations off, a call of
    [toggleAnnotations] does not set the flag: it throws, and annotations
    are still off when it has ended. *)
Lemma toggle_on_throws_on_unpaired_surrogate :
  annotationsOn (self unencodable) = false
  /\ selection_encodable (self unencodable) = false
  /\ fst (toggleAnnotations unencodable) = Thrown (URIError "URI malformed")
  /\ annotationsOn (self (exec toggleAnnotations unencodable)) = false
  /\ requests (exec toggleAnnotations unencodable) = [].
Proof. vm_compute. repeat split. Qed.

Lemma toggleAnnotations_flips_within_the_call_witness :
  annotationsOn (self visitor) = false
  /\ selection_encodable (self visitor) = true
  /\ annotationsOn (self (exec toggleAnnotations visitor)) = true
  /\ (exists w',
        toggleAnnotations visitor = (Normal tt, w')
        /\ annotationsOn (self w') = true
        /\ requests w' = [query_request (self visitor)])
  /\ (exists w',
        toggleAnnotations (exec toggleAnnotations visitor) = (Normal tt, w')
        /\ annotationsOn (self w') = false
        /\ requests w' = [query_request (self visitor)])
  /\ annotationsOn (self unencodable) = false
  /\ selection_encodable (self unencodable) = false
  /\ (exists w',
        toggleAnnotations unencodable = (Thrown (URIError "URI malformed"), w')
        /\ annotationsOn (self w') = false
        /\ requests w' = []).
Proof.
  assert (annotationsOn (self visitor) = false) as Off by reflexivity.
  assert (selection_encodable (self visitor) = true) as Enc by reflexivity.
  assert (annotationsOn (self (exec toggleAnnotations visitor)) = true)
    as On by reflexivity.
  assert (annotationsOn (self unencodable) = false) as Off' by reflexivity.
  assert (selection_encodable (self unencodable) = false) as Enc'
    by reflexivity.
  split; [exact Off|]. split; [exact Enc|]. split; [exact On|].
  split; [|split; [|split; [exact Off'|split; [exact Enc'|]]]].
  - destruct (proj1 (proj2 (toggleAnnotations_flips_within_the_call visitor))
                Off Enc) as [w' [E [F [R _]]]].
    exists w'. repeat split; assumption.
  - destruct (proj1 (toggleAnnotations_flips_within_the_call
                       (exec toggleAnnotations visitor)) On)
      as [w' [E [_ [F [R _]]]]].
    exists w'. repeat split; assumption.
  - destruct (proj2 (proj2 (toggleAnnotations_flips_within_the_call
                              unencodable)) Off' Enc')
      as [w' [E [F [R _]]]].
    exists w'. repeat split; assumption.
Defined.

(** ** Missing dataset selection and missing token *)

Section Preconditions.
Context {N : Type} `{Number N}.

Lemma _getQuery_undefined :
  _getQuery undefined undefined
  = _getQuery (Some "undefined") (Some "undefined").
Proof. reflexivity. Qed.

Lemma _getTurtle_undefined (location : value) (comment : string) :
  _getTurtle undefined undefined location comment
  = _getTurtle (Some "undefined") (Some "undefined") location comment.
Proof. reflexivity. Qed.

(** C3 (as the code has it): the dataset selection is not checked before a
    query or a document is built.  With no dataset selected,
    [toggleAnnotations] sends the query whose two filters compare with the
    text "undefined", and the submit handler (token present, shape
    encoded) posts the document whose dataset URI and variable name are
    the text "undefined"; both return normally. *)
Theorem unset_selection_is_sent_as_undefined (w : World N) :
  datasetUri (self w) = undefined ->
  datasetVar (self w) = undefined ->
  (annotationsOn (self w) = false ->
     exists w',
       toggleAnnotations w = (Normal tt, w')
       /\ requests w'
          = (requests w
             ++ [mkRequest
                   (charmeUrl (self w) ++ "sparql?format=GeoJSON&query="
                      ++ encodeURIComponent
                           (_getQuery (Some "undefined")
                              (Some "undefined")))%string
                   None [("Accept", "application/json")] None ThenRender])%list)
  /\ (forall drawEvent comment location,
        _getLocationString (layer drawEvent) = Normal location ->
        truthy (token (self w)) = true ->
        exists w',
          annoSubmit_click drawEvent comment w = (Normal tt, w')
          /\ requests w'
             = (requests w
                ++ [mkRequest
                      (charmeUrl (self w) ++ "insert/annotation")%string
                      (Some "post")
                      [("Content-Type", "text/turtle");
                       ("Authorization",
                        ("Token " ++ ToString (token (self w)))%string)]
                      (Some (_getTurtle (Some "undefined")
                               (Some "undefined") location comment))
                      ThenRefresh])%list).
Proof.
  intros Huri Hvar. split.
  - intros Off.
    assert (selection_encodable (self w) = true) as Enc
      by (unfold selection_encodable; rewrite Huri, Hvar; reflexivity).
    rewrite (toggleAnnotations_off w Off Enc).
    eexists. split; [reflexivity|].
    unfold query_request. cbn.
    rewrite Huri, Hvar, _getQuery_undefined. reflexivity.
  - intros drawEvent comment location Hloc Htok.
    unfold annoSubmit_click, lift, bind, gets, ret, modify, fetch.
    rewrite Hloc. cbn. rewrite Htok. cbn.
    eexists. split; [reflexivity|].
    cbn. rewrite Huri, Hvar, _getTurtle_undefined. reflexivity.
Qed.

(** Without a token and without a global [jso] the submit handler stops at
    the reference to [jso]: nothing is sent and the drawn layer stays. *)
Lemma annoSubmit_click_unbound_jso (w : World N) (drawEvent : Stamped N)
  (comment : string) (location : value) :
  _getLocationString (layer drawEvent) = Normal location ->
  truthy (token (self w)) = false ->
  jso w = None ->
  annoSubmit_click drawEvent comment w = (Thrown (ReferenceError "jso"), w).
Proof.
  intros Hloc Htok Hjso.
  unfold annoSubmit_click, lift, bind, gets, ret, modify, fetch, throw.
  rewrite Hloc. cbn. rewrite Htok, Hjso. reflexivity.
Qed.

(** C4 (what the code does): every call of [charmeLogout] wipes the stored
    token, sets [token] to [undefined] and fires 'logout' exactly once,
    sending nothing, also when its last statement throws.  On a page that
    binds no global [jso], as the pages of the repository do, a submission
    after it is neither refused for the missing token nor sent: the handler
    goes to fetch a token again, stops at the reference to [jso] with a
    [ReferenceError] before [fetch] is called, and leaves everything as it
    was, the drawn shape included. *)
Theorem logout_then_submit_stops_at_jso (w : World N)
  (drawEvent : Stamped N) (comment : string) (location : value) :
  jso w = None ->
  _getLocationString (layer drawEvent) = Normal location ->
  let w1 := exec charmeLogout w in
  token (self w1) = undefined
  /\ JSO.checkToken (charmeOAuth (self w1)) = undefined
  /\ fired w1 = (fired w ++ [logout])%list
  /\ requests w1 = requests w
  /\ featureGroup w1 = featureGroup w
  /\ annoSubmit_click drawEvent comment w1
     = (Thrown (ReferenceError "jso"), w1).
Proof.
  intros Hjso Hloc w1.
  assert (token (self w1) = undefined
          /\ JSO.checkToken (charmeOAuth (self w1)) = undefined
          /\ fired w1 = (fired w ++ [logout])%list
          /\ requests w1 = requests w
          /\ featureGroup w1 = featureGroup w
          /\ jso w1 = None) as [T [S [F [R [G J]]]]].
  { unfold w1, exec, charmeLogout, fire, bind, gets, throw, modify. cbn.
    destruct (drawControl (self w)); cbn; [|now repeat split].
    destruct (drawControlShown (map (self w))); now repeat split. }
  repeat split; try assumption.
  apply annoSubmit_click_unbound_jso with (location := location);
    [exact Hloc | now rewrite T | exact J].
Qed.

End Preconditions.

(** A new page with no dataset selected: the toggle sends the query with
    "undefined" in both filters, and a member's submission posts a document
    about the dataset "undefined". *)
Lemma query_and_document_built_without_selection :
  datasetUri (self visitor) = undefined
  /\ datasetVar (self visitor) = undefined
  /\ (exists w',
        toggleAnnotations visitor = (Normal tt, w')
        /\ List.map url (requests w')
           = [node ++ "sparql?format=GeoJSON&query="
                ++ encodeURIComponent
                     (_getQuery (Some "undefined") (Some "undefined"))])
  /\ includes (_getQuery (datasetUri (self visitor)) (datasetVar (self visitor)))
       ("FILTER(str(?datasetUri)=" ++ dq ++ "undefined" ++ dq ++ ")") = true
  /\ (let w := run [DrawCreated (mkStamped 1 (Marker (mkLatLng 55 (-3))%Z));
                    Click_annoSubmit 1 "hot"] (member None) in
      option_map body (nth_error (requests w) 1)
      = Some (Some (_getTurtle (Some "undefined") (Some "undefined")
                      (Some "POINT (-3 55)") "hot"))).
Proof.
  repeat split; try (vm_compute; reflexivity).
  eexists. split; vm_compute; reflexivity.
Qed.

Lemma unset_selection_is_sent_as_undefined_witness :
  datasetUri (self (member None)) = undefined
  /\ datasetVar (self (member None)) = undefined
  /\ annotationsOn (self (member None)) = false
  /\ truthy (token (self (member None))) = true
  /\ (exists w', toggleAnnotations (member None) = (Normal tt, w'))
  /\ (exists w',
        annoSubmit_click (mkStamped 1 (Marker (mkLatLng 55 (-3))%Z)) "hot"
          (member None) = (Normal tt, w')).
Proof.
  pose proof (unset_selection_is_sent_as_undefined (member None)
                eq_refl eq_refl) as [T S].
  repeat split.
  - destruct (T eq_refl) as [w' [E _]]. now exists w'.
  - destruct (S (mkStamped 1 (Marker (mkLatLng 55 (-3))%Z)) "hot"
                (Some "POINT (-3 55)") eq_refl eq_refl) as [w' [E _]].
    now exists w'.
Defined.

(** A member draws a marker, logs out with the form still open and clicks
    on Submit; the page binds no [jso].  'logout' has fired once, the click
    handler throws the [ReferenceError], the only request is still the
    user-details lookup of the page load, and the marker is still in the
    group.  A second click on the logout button fires 'logout' again and
    then throws, the draw control being off the map already. *)
Lemma logout_then_submit_stops_at_jso_witness :
  let w := run [DrawCreated drawn_marker] (member None) in
  jso w = None
  /\ _getLocationString (layer drawn_marker) = Normal (Some "POINT (-3 55)")
  /\ fired (exec charmeLogout w) = [logout]
  /\ annoSubmit_click drawn_marker "hot" (exec charmeLogout w)
     = (Thrown (ReferenceError "jso"), exec charmeLogout w)
  /\ fst (handle (Click_annoSubmit 1 "hot") logged_out)
     = Thrown (ReferenceError "jso")
  /\ List.map url (requests (step logged_out (Click_annoSubmit 1 "hot")))
     = [node ++ "token/userinfo"]
  /\ List.map stamp (featureGroup (step logged_out (Click_annoSubmit 1 "hot")))
     = [1]
  /\ fst (charmeLogout logged_out)
     = Thrown (NotFoundError
                 "The node to be removed is not a child of this node")
  /\ fired (exec charmeLogout logged_out) = [logout; logout].
Proof.
  intros w.
  assert (jso w = None) as Hjso by reflexivity.
  assert (_getLocationString (layer drawn_marker)
          = Normal (Some "POINT (-3 55)")) as Hloc by reflexivity.
  destruct (logout_then_submit_stops_at_jso w drawn_marker "hot"
              (Some "POINT (-3 55)") Hjso Hloc)
    as [_ [_ [F [_ [_ S]]]]].
  split; [exact Hjso|]. split; [exact Hloc|].
  split; [exact F|]. split; [exact S|].
  repeat split.
Defined.

(** * Further properties *)

(** ** Frames and invariants of the event loop *)

(** Every handler unfolded, and a case for each branch it can take. *)
Ltac handler_cases :=
  unfold step, exec, handle, toggleAnnotationsButton_click, selectDataset,
    setDatasetDetails, charmeLogin, charmeLogout, setFormatAnnotation,
    draw_created, popupclose, annoSubmit_click, resolve, reject, caught,
    refresh, render, isAnnotationsOn, toggleAnnotations,
    call_encodeURIComponent, getToken, fire, fetch, lift, bind, gets, ret,
    throw, modify;
  cbn;
  repeat match goal with
    | |- context [match ?x with _ => _ end] =>
        lazymatch x with
        | context [match _ with _ => _ end] => fail
        | _ => destruct x eqn:?; cbn
        end
    end.

(** A query that cannot be encoded although its selection can. *)
Ltac encodable_absurd :=
  exfalso;
  repeat match goal with
    | E : malformed (_getQuery _ _) = true |- _ =>
        rewrite malformed_getQuery in E; cbn [ToString] in E
    end;
  unfold selection_encodable, selects_encodable in *;
  cbn [datasetUri datasetVar ToString] in *;
  repeat match goal with
    | E : context [malformed ?s] |- _ => destruct (malformed s)
    end;
  discriminate.

Section Frames.
Context {N : Type} `{Number N}.

Lemma step_flag (w : World N) (e : Event N) :
  selection_encodable (self w) = true ->
  selects_encodable e = true ->
  annotationsOn (self (step w e))
  = match e with
    | Click_toggleAnnotationsButton => negb (annotationsOn (self w))
    | _ => annotationsOn (self w)
    end.
Proof.
  intros Enc Sel.
  destruct e; handler_cases; try reflexivity; try congruence;
    encodable_absurd.
Qed.

(** X1: as long as the selected dataset URI and variable name can be
    URL-encoded, handling an event changes the visibility flag only when the
    event is a click on the toggle button, which negates it; a dataset
    selection, a drawn shape, a submission, a reply or failure of any
    request, login and logout leave it as it was. *)
Theorem only_the_button_changes_visibility (w : World N) (e : Event N) :
  selection_encodable (self w) = true ->
  selects_encodable e = true ->
  annotationsOn (self (step w e))
  = match e with
    | Click_toggleAnnotationsButton => negb (annotationsOn (self w))
    | _ => annotationsOn (self w)
    end.
Proof. exact (step_flag w e). Qed.

Lemma in_flight_Some (w : World N) (id : nat) (r : Request) :
  in_flight id w = Some r ->
  ~ In id (settled w) /\ nth_error (requests w) id = Some r.
Proof.
  unfold in_flight. destruct (existsb (Nat.eqb id) (settled w)) eqn:E;
    [discriminate|].
  intros E'. split; [|exact E'].
  intros I. assert (existsb (Nat.eqb id) (settled w) = true) as T.
  { apply existsb_exists. exists id. split; [exact I | apply Nat.eqb_refl]. }
  congruence.
Qed.

End Frames.
Section Invariants.
Context {N : Type} `{Number N}.

Ltac in_flight_facts :=
  repeat match goal with
    | E : in_flight ?id ?w = Some ?r |- _ =>
        let F := fresh "Fresh" in
        let L := fresh "Issued" in
        destruct (in_flight_Some w id r E) as [F L];
        assert (id < length (requests w))
          by (apply nth_error_Some; congruence);
        clear E
    end.

Lemma step_promises (w : World N) (e : Event N) :
  promises_consistent w -> promises_consistent (step w e).
Proof.
  intros [ND [FA LE]]. unfold promises_consistent.
  destruct e; handler_cases; in_flight_facts;
    (split; [|split]); cbn;
    rewrite ?length_app; cbn;
    try assumption; try lia;
    try (constructor; assumption);
    try (constructor; [lia|]);
    try (eapply Forall_impl; [|exact FA]; cbn; intros; lia).
Qed.

Lemma run_promises (es : list (Event N)) (w : World N) :
  promises_consistent w -> promises_consistent (run es w).
Proof.
  revert w. induction es as [|e es IH]; intros w P; [exact P|].
  apply IH, step_promises, P.
Qed.

Lemma new_promises (charmeUrl : string) (hashToken : value)
  (storage : JSO.t) (jso : option JSO.t) :
  promises_consistent
    (new_CharmeAnnotator (N:=N) charmeUrl hashToken storage jso).
Proof.
  unfold promises_consistent, new_CharmeAnnotator.
  destruct (JSO.checkToken (JSO.callback hashToken storage)); cbn;
    repeat split; try constructor; lia.
Qed.

(** X2: after any sequence of events on a new annotator the annotations
    group holds at most one layer per settled request, and no more requests
    are settled than were sent. *)
Theorem overlays_come_with_replies (charmeUrl : string) (hashToken : value)
  (storage : JSO.t) (jso : option JSO.t) (es : list (Event N)) :
  let w := run es (new_CharmeAnnotator charmeUrl hashToken storage jso) in
  length (annotationsGroup (self w)) <= length (settled w)
  /\ length (settled w) <= length (requests w).
Proof.
  destruct (run_promises es _ (new_promises charmeUrl hashToken storage jso))
    as [ND [FA LE]].
  split; [exact LE|].
  apply NoDup_incl_length with (l' := seq 0 (length (requests
    (run es (new_CharmeAnnotator charmeUrl hashToken storage jso)))))
    in ND.
  - now rewrite length_seq in ND.
  - intros id I. apply in_seq. rewrite Forall_forall in FA.
    specialize (FA id I). lia.
Qed.

End Invariants.

Section LoginOnce.
Context {N : Type} `{Number N}.

Lemma logins_app (a b : list Fired) :
  logins (a ++ b)%list = logins a + logins b.
Proof.
  induction a as [|[u|] a IH]; cbn; [reflexivity | now rewrite IH | exact IH].
Qed.

Lemma lookup_first_app (rs : list Request) (r' : Request) :
  (forall i r, nth_error rs i = Some r ->
               continuation r = ThenFireLogin -> i = 0) ->
  continuation r' <> ThenFireLogin ->
  forall i r, nth_error (rs ++ [r'])%list i = Some r ->
              continuation r = ThenFireLogin -> i = 0.
Proof.
  intros Old New i r E K.
  destruct (Nat.lt_ge_cases i (length rs)) as [Lt|Ge].
  - rewrite nth_error_app1 in E by exact Lt. now apply (Old i r).
  - rewrite nth_error_app2 in E by exact Ge.
    destruct (i - length rs) as [|k]; cbn in E.
    + injection E as <-. contradiction.
    + destruct k; discriminate.
Qed.

Lemma step_login_once (w : World N) (e : Event N) :
  login_once w -> login_once (step w e).
Proof.
  intros [First Count]. unfold login_once.
  destruct e; handler_cases; split;
    try exact First;
    try (apply lookup_first_app; [exact First | discriminate]);
    rewrite ?logins_app; cbn [logins]; rewrite ?Nat.add_0_r;
    try exact Count;
    try (destruct Count as [Zero|[One Settled]];
         [left; exact Zero | right; split; [exact One | now right]]).
  (* the reply to the user-details lookup *)
  all: match goal with
       | E : in_flight ?id ?w = Some ?r, K : continuation ?r = ThenFireLogin
         |- _ =>
           destruct (in_flight_Some w id r E) as [Fresh Issued];
           assert (id = 0) as -> by exact (First id r Issued K)
       end.
  all: destruct Count as [Zero|[One Settled]]; [|contradiction].
  all: right; split; [rewrite Zero; reflexivity | now left].
Qed.

Lemma run_login_once (es : list (Event N)) (w : World N) :
  login_once w -> login_once (run es w).
Proof.
  revert w. induction es as [|e es IH]; intros w P; [exact P|].
  apply IH, step_login_once, P.
Qed.

Lemma new_login_once (charmeUrl : string) (hashToken : value)
  (storage : JSO.t) (jso : option JSO.t) :
  login_once (new_CharmeAnnotator (N:=N) charmeUrl hashToken storage jso).
Proof.
  unfold login_once, new_CharmeAnnotator.
  destruct (JSO.checkToken (JSO.callback hashToken storage)); cbn.
  - split; [|now left]. intros [|i] r E K; [reflexivity|].
    destruct i; discriminate.
  - split; [|now left]. intros [|i] r E K; discriminate.
Qed.

(** X3: after any sequence of events on a new annotator 'login' has fired
    at most once, and when it has, the first request, the user-details lookup
    of [_init], has been answered. *)
Theorem login_fires_at_most_once (charmeUrl : string) (hashToken : value)
  (storage : JSO.t) (jso : option JSO.t) (es : list (Event N)) :
  let w := run es (new_CharmeAnnotator charmeUrl hashToken storage jso) in
  logins (fired w) = 0 \/ (logins (fired w) = 1 /\ In 0 (settled w)).
Proof. apply run_login_once, new_login_once. Qed.

Lemma step_anonymous (w : World N) (e : Event N) :
  anonymous w -> anonymous (step w e).
Proof.
  intros [T [D [L [G [Q F]]]]]. unfold anonymous.
  destruct w as [a fg rs st fi j rd wl tc].
  destruct a as [cu oa m0 dc ag on du dv fa tk].
  destruct m0 as [shown wired]. cbn in T, D, L, G, Q, F. subst.
  destruct e; handler_cases;
    repeat match goal with
      | E : in_flight ?id ?w = Some ?r |- _ =>
          let I := fresh "Issued" in
          destruct (in_flight_Some w id r E) as [_ I];
          apply nth_error_In in I; cbn in I;
          pose proof (proj1 (Forall_forall _ _) Q r I);
          clear E
      end;
    try congruence;
    repeat split; cbn;
    rewrite ?logins_app; cbn; rewrite ?Nat.add_0_r;
    try assumption; try reflexivity;
    try (apply Forall_app; split; [exact Q | repeat constructor]).
Qed.

Lemma run_anonymous (es : list (Event N)) (w : World N) :
  anonymous w -> anonymous (run es w).
Proof.
  revert w. induction es as [|e es IH]; intros w P; [exact P|].
  apply IH, step_anonymous, P.
Qed.

(** X4: on a page opened without a token, whatever happens afterwards, the
    annotator keeps no token, no drawn shape is ever held, every request is
    an annotation query, no annotation is posted and 'login' never fires. *)
Theorem visitor_never_posts (charmeUrl : string) (jso : option JSO.t)
  (es : list (Event N)) :
  let w := run es
             (new_CharmeAnnotator charmeUrl undefined (JSO.mk undefined) jso) in
  token (self w) = undefined
  /\ featureGroup w = []
  /\ Forall (fun r => continuation r = ThenRender) (requests w)
  /\ inserts (requests w) = []
  /\ logins (fired w) = 0.
Proof.
  intros w.
  assert (anonymous w) as [T [_ [_ [G [Q F]]]]].
  { apply run_anonymous. repeat split. constructor. }
  repeat split; try assumption.
  unfold inserts. clear - Q. induction Q as [|r rs K Q IH]; [reflexivity|].
  cbn. now rewrite K.
Qed.

End LoginOnce.

Section Operations2.
Context {N : Type} `{Number N}.

(** [selectDataset] as far as the annotator goes, for a dataset that can be
    URL-encoded. *)
Lemma selectDataset_encodable (w : World N) (uri variable : string) :
  negb (malformed uri) && negb (malformed variable) = true ->
  exists w',
    selectDataset uri variable w = (Normal tt, w')
    /\ datasetUri (self w') = Some uri
    /\ datasetVar (self w') = Some variable
    /\ wmsLayer w' = Some (uri, variable)
    /\ annotationsOn (self w') = annotationsOn (self w)
    /\ settled w' = settled w
    /\ if annotationsOn (self w)
       then annotationsGroup (self w') = []
            /\ requests w' = (requests w ++ [query_request (self w')])%list
       else annotationsGroup (self w') = annotationsGroup (self w)
            /\ requests w' = requests w.
Proof.
  intros Enc.
  unfold selectDataset, setDatasetDetails, isAnnotationsOn, bind, gets, ret,
    modify. cbn.
  destruct (annotationsOn (self w)) eqn:On; cbn;
    [|eexists; now repeat split].
  rewrite toggleAnnotations_on by exact On.
  rewrite toggleAnnotations_off by (reflexivity || exact Enc).
  eexists. now repeat split.
Qed.

(** X5: a click on one of the three dataset buttons of the demo page calls
    [selectDataset], which returns normally, records the button's dataset
    URI, variable and WMS layer, and keeps the visibility flag; with
    annotations on it empties the annotations group and sends exactly one
    query, for the new selection; with annotations off it sends nothing. *)
Theorem dataset_button_keeps_visibility (w : World N)
  (button : Demo.PageEvent (N:=N)) (uri variable : string) :
  Demo.to_annotator button = Click_datasetButton uri variable ->
  exists w',
    selectDataset uri variable w = (Normal tt, w')
    /\ datasetUri (self w') = Some uri
    /\ datasetVar (self w') = Some variable
    /\ wmsLayer w' = Some (uri, variable)
    /\ annotationsOn (self w') = annotationsOn (self w)
    /\ settled w' = settled w
    /\ if annotationsOn (self w)
       then annotationsGroup (self w') = []
            /\ requests w' = (requests w ++ [query_request (self w')])%list
       else annotationsGroup (self w') = annotationsGroup (self w)
            /\ requests w' = requests w.
Proof.
  intros Button. apply selectDataset_encodable.
  destruct button; try discriminate Button;
    cbn [Demo.to_annotator] in Button;
    injection Button as <- <-; reflexivity.
Qed.

(** X6: when the post of an annotation is answered, whatever the answer,
    the callback never throws out of the promise.  With annotations off
    nothing changes but the promise being settled.  With annotations on the
    group is emptied; then, if the current selection can be URL-encoded, one
    query for it is sent and annotations stay on; if not, the [URIError] of
    the second call is caught, nothing is sent and annotations are left off.
    When the post fails, the promise is settled and nothing else changes. *)
Theorem insert_reply_refreshes (w : World N) (id : nat) (r : Request)
  (reply : Reply N) :
  in_flight id w = Some r ->
  continuation r = ThenRefresh ->
  (exists w',
      resolve id reply w = (Normal tt, w')
      /\ settled w' = id :: settled w
      /\ if annotationsOn (self w)
         then annotationsGroup (self w') = []
              /\ if selection_encodable (self w)
                 then annotationsOn (self w') = true
                      /\ requests w'
                         = (requests w ++ [query_request (self w)])%list
                 else annotationsOn (self w') = false
                      /\ requests w' = requests w
         else annotationsOn (self w') = false
              /\ annotationsGroup (self w') = annotationsGroup (self w)
              /\ requests w' = requests w)
  /\ (exists w',
      reject id w = (Normal tt, w')
      /\ self w' = self w
      /\ requests w' = requests w
      /\ settled w' = id :: settled w).
Proof.
  intros Hr Hk. split.
  - unfold resolve, caught, refresh, bind, gets, ret, modify. cbn.
    rewrite Hr, Hk. cbn.
    destruct (annotationsOn (self w)) eqn:On; cbn;
      [|eexists; now repeat split].
    rewrite toggleAnnotations_on by exact On. cbn.
    destruct (selection_encodable (self w)) eqn:Enc.
    + rewrite toggleAnnotations_off by (reflexivity || exact Enc).
      eexists. now repeat split.
    + rewrite toggleAnnotations_throws by (reflexivity || exact Enc).
      eexists. now repeat split.
  - unfold reject, bind, gets, modify. cbn. rewrite Hr.
    eexists. repeat split.
Qed.

Lemma find_removeLayer (id : nat) (g : list (Stamped N)) :
  find (fun x => stamp x =? id)%nat (removeLayer id g) = None.
Proof.
  unfold removeLayer. induction g as [|x g IH]; [reflexivity|].
  cbn. destruct (stamp x =? id)%nat eqn:E; cbn; [exact IH|].
  now rewrite E.
Qed.

(** X7: on a page that binds no global [jso], the submit handler either
    returns normally, which it does exactly when the annotator has a token
    and the shape encodes, having sent exactly one post of the document
    with that token and taken the drawn layer out of the temporary group
    without touching token, visibility or overlays; or it throws and leaves
    everything as it was: nothing sent, the layer still in the group. *)
Theorem submit_is_all_or_nothing (w : World N) (drawEvent : Stamped N)
  (comment : string) :
  jso w = None ->
  match annoSubmit_click drawEvent comment w with
  | (Normal _, w') =>
      truthy (token (self w)) = true
      /\ (exists location,
            _getLocationString (layer drawEvent) = Normal location
            /\ requests w'
               = (requests w
                  ++ [insert_request (self w) (token (self w)) location
                        comment])%list)
      /\ featureGroup w' = removeLayer (stamp drawEvent) (featureGroup w)
      /\ find (fun x => stamp x =? stamp drawEvent)%nat (featureGroup w')
         = None
      /\ self w' = self w
  | (Thrown _, w') =>
      w' = w
      /\ (truthy (token (self w)) = false
          \/ exists e, _getLocationString (layer drawEvent) = Thrown e)
  end.
Proof.
  intros Hjso.
  unfold annoSubmit_click, getToken, fetch, lift, bind, gets, ret, throw,
    modify.
  destruct (_getLocationString (layer drawEvent)) as [location|err];
    [|split; [reflexivity | right; now exists err]].
  cbn. destruct (truthy (token (self w))) eqn:T; cbn.
  - repeat split; [|apply find_removeLayer].
    exists location. now split.
  - rewrite Hjso. split; [reflexivity | now left].
Qed.

(** With a token the handler posts and takes the shape out of the group. *)
Lemma annoSubmit_click_with_token (w : World N) (drawEvent : Stamped N)
  (comment : string) (location : value) :
  _getLocationString (layer drawEvent) = Normal location ->
  truthy (token (self w)) = true ->
  annoSubmit_click drawEvent comment w
  = (Normal tt,
     with_featureGroup (removeLayer (stamp drawEvent) (featureGroup w))
       (push_request
          (insert_request (self w) (token (self w)) location comment) w)).
Proof.
  intros Hloc Htok.
  unfold annoSubmit_click, fetch, lift, bind, gets, ret, modify.
  rewrite Hloc. cbn. rewrite Htok. reflexivity.
Qed.

(** X13: the submit handler does not ask whether its shape is still in the
    temporary group.  With a token present and a shape that encodes, a
    second run of the handler for the same shape and comment, after the
    first has taken the shape out of the group, returns normally again and
    posts the same document a second time. *)
Theorem submit_handler_posts_again (w : World N) (drawEvent : Stamped N)
  (comment : string) (location : value) :
  _getLocationString (layer drawEvent) = Normal location ->
  truthy (token (self w)) = true ->
  let post := insert_request (self w) (token (self w)) location comment in
  let w1 := exec (annoSubmit_click drawEvent comment) w in
  annoSubmit_click drawEvent comment w = (Normal tt, w1)
  /\ find (fun x => stamp x =? stamp drawEvent)%nat (featureGroup w1) = None
  /\ exists w2,
      annoSubmit_click drawEvent comment w1 = (Normal tt, w2)
      /\ requests w2 = (requests w ++ [post; post])%list.
Proof.
  intros Hloc Htok post w1. unfold w1, exec.
  rewrite (annoSubmit_click_with_token w drawEvent comment location Hloc Htok).
  cbn [snd]. split; [reflexivity|]. split; [apply find_removeLayer|].
  rewrite (annoSubmit_click_with_token _ drawEvent comment location Hloc)
    by exact Htok.
  eexists. split; [reflexivity|]. cbn. now rewrite <- app_assoc.
Qed.

(** X23: [charmeLogout] wipes the stored token, clears [token], fires
    'logout' once and sends nothing, whatever comes of its last statement.
    It returns normally exactly when the draw control is on the map, which
    it then takes off; without a draw control (a page opened without a
    token) it throws a [TypeError], and with the control off the map already
    (a second logout) a [NotFoundError]. *)
Theorem charmeLogout_outcome (w : World N) :
  exists result w',
    charmeLogout w = (result, w')
    /\ token (self w') = undefined
    /\ JSO.checkToken (charmeOAuth (self w')) = undefined
    /\ fired w' = (fired w ++ [logout])%list
    /\ requests w' = requests w
    /\ drawControl (self w') = drawControl (self w)
    /\ match drawControl (self w), drawControlShown (map (self w)) with
       | Some _, true =>
           result = Normal tt /\ drawControlShown (map (self w')) = false
       | Some _, false =>
           result = Thrown (NotFoundError
                      "The node to be removed is not a child of this node")
       | None, _ =>
           result = Thrown (TypeError "Cannot read properties of undefined")
           /\ map (self w') = map (self w)
       end.
Proof.
  unfold charmeLogout, fire, bind, gets, throw, modify. cbn.
  destruct (drawControl (self w)) eqn:D; cbn;
    [|do 2 eexists; now repeat split].
  destruct (drawControlShown (map (self w))); cbn;
    do 2 eexists; now repeat split.
Qed.

(** X24: overlays leave the annotations group only all at once.  Handling an
    event leaves the group as it was, or empties it, or appends one layer
    to it; it is emptied only by a click on the toggle button, a dataset
    selection or an answered request, and the appended layer is the
    rendering of the feature collection of a reply. *)
Theorem overlays_appended_or_cleared (w : World N) (e : Event N) :
  let g := annotationsGroup (self w) in
  let g' := annotationsGroup (self (step w e)) in
  match e with
  | Click_toggleAnnotationsButton | Click_datasetButton _ _ =>
      g' = g \/ g' = []
  | Resolved id reply =>
      g' = g \/ g' = []
      \/ exists resp,
          reply = FeatureCollection resp
          /\ g' = (g ++ [List.map (onEachFeature (formatAnnotation (self w)))
                           resp])%list
  | _ => g' = g
  end.
Proof.
  destruct e; handler_cases; auto.
  right; right. eexists. split; reflexivity.
Qed.

End Operations2.
Section Invariants2.
Context {N : Type} `{Number N}.

Lemma inserts_query (rs : list Request) (r : Request) :
  continuation r = ThenRender -> inserts (rs ++ [r]) = inserts rs.
Proof.
  intros K. unfold inserts. rewrite filter_app. cbn. rewrite K.
  apply app_nil_r.
Qed.

Lemma step_without_token (w : World N) (e : Event N) :
  truthy (token (self w)) = false ->
  jso w = None ->
  truthy (token (self (step w e))) = false
  /\ jso (step w e) = None
  /\ inserts (requests (step w e)) = inserts (requests w).
Proof.
  intros T J.
  destruct e; handler_cases;
    rewrite ?inserts_query by reflexivity;
    repeat split; try assumption; try reflexivity; try congruence.
Qed.

(** X8: while the annotator has no token and the page has no global [jso],
    no sequence of events posts an annotation or brings a token back. *)
Theorem nothing_posted_without_token_and_jso (w : World N)
  (es : list (Event N)) :
  truthy (token (self w)) = false ->
  jso w = None ->
  truthy (token (self (run es w))) = false
  /\ inserts (requests (run es w)) = inserts (requests w).
Proof.
  revert w. induction es as [|e es IH]; intros w T J; [now split|].
  destruct (step_without_token w e T J) as [T' [J' I']].
  destruct (IH (step w e) T' J') as [T'' I''].
  split; [exact T''|]. cbn [run fold_left]. fold (run es (step w e)).
  now rewrite I''.
Qed.

Lemma step_wiring (w : World N) (e : Event N) :
  charmeUrl (self (step w e)) = charmeUrl (self w)
  /\ drawControl (self (step w e)) = drawControl (self w)
  /\ drawCreatedListener (map (self (step w e)))
     = drawCreatedListener (map (self w))
  /\ jso (step w e) = jso w.
Proof.
  destruct e; handler_cases; repeat split; congruence.
Qed.

Lemma run_wiring (es : list (Event N)) (w : World N) :
  charmeUrl (self (run es w)) = charmeUrl (self w)
  /\ drawControl (self (run es w)) = drawControl (self w)
  /\ drawCreatedListener (map (self (run es w)))
     = drawCreatedListener (map (self w))
  /\ jso (run es w) = jso w.
Proof.
  revert w. induction es as [|e es IH]; intros w; [now repeat split|].
  cbn [run fold_left]. fold (run es (step w e)).
  destruct (IH (step w e)) as [A [B [C D]]].
  destruct (step_wiring w e) as [A' [B' [C' D']]].
  repeat split; congruence.
Qed.

Lemma addLayer_has (d : Stamped N) (g : list (Stamped N)) :
  existsb (fun x => stamp x =? stamp d)%nat (addLayer d g) = true.
Proof.
  unfold addLayer.
  destruct (existsb (fun x => stamp x =? stamp d)%nat g) eqn:E; [exact E|].
  rewrite existsb_app. cbn. rewrite Nat.eqb_refl. apply orb_true_r.
Qed.

(** X9: no event changes [drawControl] or unwires the 'draw:created'
    handler: logout takes the control off the map only, and on a page opened
    with a token a shape drawn after any events, also after a logout, is
    still added to the temporary group. *)
Theorem draw_handler_stays_wired (w : World N) (es : list (Event N)) :
  drawControl (self (run es w)) = drawControl (self w)
  /\ drawCreatedListener (map (self (run es w)))
     = drawCreatedListener (map (self w))
  /\ (drawCreatedListener (map (self w)) = true ->
      forall drawEvent,
        existsb (fun x => stamp x =? stamp drawEvent)%nat
          (featureGroup (step (run es w) (DrawCreated drawEvent))) = true).
Proof.
  destruct (run_wiring es w) as [_ [D [L _]]].
  split; [exact D|]. split; [exact L|].
  intros Wired drawEvent. rewrite <- L in Wired.
  unfold step, exec, handle, draw_created, bind, gets, ret, modify. cbn.
  rewrite Wired. cbn. apply addLayer_has.
Qed.

Lemma step_to_node (w : World N) (e : Event N) :
  Forall (fun r => exists path, url r = charmeUrl (self w) ++ path)
    (requests w) ->
  Forall (fun r => exists path, url r = charmeUrl (self (step w e)) ++ path)
    (requests (step w e)).
Proof.
  intros Q.
  destruct e; handler_cases; try exact Q;
    repeat (apply Forall_app; split; [|repeat constructor; cbn; eexists; reflexivity]);
    try exact Q.
Qed.

(** X10: every request the annotator ever sends has a URL that starts with
    the node URL given to the constructor. *)
Theorem requests_go_to_the_node (nodeUrl : string) (hashToken : value)
  (storage : JSO.t) (jso : option JSO.t) (es : list (Event N)) :
  Forall (fun r => exists path, url r = nodeUrl ++ path)
    (requests (run es (new_CharmeAnnotator nodeUrl hashToken storage jso))).
Proof.
  assert (forall es (w : World N),
             Forall (fun r => exists path, url r = charmeUrl (self w) ++ path)
               (requests w) ->
             Forall (fun r => exists path,
                         url r = charmeUrl (self w) ++ path)
               (requests (run es w))) as Run.
  { clear es. induction es as [|e es IH]; intros w Q; [exact Q|].
    cbn [run fold_left]. fold (run es (step w e)).
    destruct (step_wiring w e) as [U _]. rewrite <- U.
    apply IH, step_to_node, Q. }
  pose proof (Run es (new_CharmeAnnotator nodeUrl hashToken storage jso)) as R.
  assert (charmeUrl
            (self (new_CharmeAnnotator (N:=N) nodeUrl hashToken storage jso))
          = nodeUrl) as U.
  { unfold new_CharmeAnnotator.
    now destruct (JSO.checkToken (JSO.callback hashToken storage)). }
  rewrite U in R. apply R.
  unfold new_CharmeAnnotator.
  destruct (JSO.checkToken (JSO.callback hashToken storage)); cbn;
    repeat constructor. eexists. reflexivity.
Qed.

End Invariants2.

(** ** More on the texts *)

Section EncodersCompared.
Context {N : Type} `{Number N}.

(** X11: the encoder of charme.js and the annotator's give the same result
    on every marker, on every layer of another kind, on the empty ring, and
    on every ring whose first and last points have the same latitude, a
    rectangle for one. *)
Theorem encoders_agree_on_equal_latitudes (shape : Layer N) :
  match shape with
  | Polyline (p :: rest) =>
      lat p = lat (last rest p) ->
      getLocationString shape = _getLocationString shape
  | _ => getLocationString shape = _getLocationString shape
  end.
Proof.
  destruct shape as [latlng | [|p rest] | c r]; try reflexivity.
  intros Same.
  rewrite (getLocationString_ring (p :: rest) p) by discriminate.
  rewrite (_getLocationString_ring (p :: rest) p) by discriminate.
  assert (last (p :: rest) p = last rest p) as L
    by (destruct rest; reflexivity).
  cbn [hd]. rewrite L, Same. now destruct (last rest p).
Qed.

End EncodersCompared.

(** X12: the dataset query does not determine the selection it was built
    for: a variable name that contains the text between the two filters gives
    the query of another dataset and variable. *)
Theorem _getQuery_filters_can_be_forged (a b c : string) :
  _getQuery (Some c) (Some (a ++ filter_seam ++ b))
  = _getQuery (Some (b ++ filter_seam ++ c)) (Some a).
Proof.
  unfold _getQuery, filter_seam, ToString. text_eq.
Qed.

(** ** The demo page *)

Section DemoFacts.
Context {N : Type} `{Number N}.

Lemma step_selection (w : World N) (e : Event N) :
  (datasetUri (self (step w e)), datasetVar (self (step w e)))
  = match e with
    | Click_datasetButton uri variable | Call_setDatasetDetails uri variable =>
        (Some uri, Some variable)
    | _ => (datasetUri (self w), datasetVar (self w))
    end.
Proof.
  destruct e; handler_cases; try reflexivity; try congruence.
Qed.

Lemma step_fired (w : World N) (e : Event N) :
  exists heard, fired (step w e) = (fired w ++ heard)%list.
Proof.
  destruct e; handler_cases;
    try (exists []; now rewrite app_nil_r);
    try (eexists; reflexivity).
Qed.

Lemma skipn_length_app {A} (l heard : list A) :
  skipn (length l) (l ++ heard) = heard.
Proof. induction l as [|x l IH]; [reflexivity | exact IH]. Qed.

Lemma listen_keeps_buttons (heard : list Fired) (d : Demo.Document) :
  Demo.toggleAnnotationsButton (fold_left Demo.listen heard d)
  = Demo.toggleAnnotationsButton d
  /\ Demo.sstButton (fold_left Demo.listen heard d) = Demo.sstButton d
  /\ Demo.sstErrorButton (fold_left Demo.listen heard d)
     = Demo.sstErrorButton d
  /\ Demo.landCoverButton (fold_left Demo.listen heard d)
     = Demo.landCoverButton d.
Proof.
  revert d. induction heard as [|f heard IH]; intros d; [now repeat split|].
  cbn [fold_left]. destruct (IH (Demo.listen d f)) as [A [B [C D]]].
  rewrite A, B, C, D. destruct f; now repeat split.
Qed.

(** With selections that can be encoded, a click on the toggle button or
    on a dataset button returns. *)
Lemma handle_returns (w : World N) (e : Event N) :
  selection_encodable (self w) = true ->
  selects_encodable e = true ->
  match e with
  | Click_toggleAnnotationsButton | Click_datasetButton _ _ => True
  | _ => False
  end ->
  fst (handle e w) = Normal tt.
Proof.
  intros Enc Sel B.
  destruct e; try contradiction; handler_cases; try reflexivity;
    encodable_absurd.
Qed.

(** The page selects only its three datasets, which are plain text. *)
Lemma to_annotator_encodable (e : Demo.PageEvent (N:=N)) :
  selects_encodable (Demo.to_annotator e) = true.
Proof. destruct e; reflexivity. Qed.

Lemma dataset_in_step_encodable (p : Demo.Page (N:=N)) :
  Demo.dataset_in_step p ->
  selection_encodable (self (Demo.annotator p)) = true.
Proof.
  unfold Demo.dataset_in_step, selection_encodable.
  intros [[U [V _]] | [[U [V _]] | [[U [V _]] | [U [V _]]]]];
    rewrite U, V; reflexivity.
Qed.

Lemma page_step_label (p : Demo.Page) (e : Demo.PageEvent) :
  Demo.dataset_in_step p ->
  Demo.label_in_step p -> Demo.label_in_step (Demo.page_step p e).
Proof.
  intros D L. unfold Demo.label_in_step, Demo.page_step in *.
  cbn [Demo.document Demo.annotator].
  destruct (listen_keeps_buttons
              (skipn (length (fired (Demo.annotator p)))
                 (fired (step (Demo.annotator p) (Demo.to_annotator e))))
              (Demo.document p)) as [K _].
  pose proof (step_flag (Demo.annotator p) (Demo.to_annotator e)
                (dataset_in_step_encodable p D) (to_annotator_encodable e))
    as F.
  pose proof (handle_returns (Demo.annotator p) (Demo.to_annotator e)
                (dataset_in_step_encodable p D) (to_annotator_encodable e))
    as R.
  destruct e;
    cbn [Demo.then_in_document Demo.set_label Demo.set_datasets
         Demo.toggleAnnotationsButton Demo.to_annotator] in *.
  all: try match goal with
           | R : True -> _ |- _ => rewrite (R I)
           end.
  all: try match goal with
           | |- context [fst (handle ?e ?w)] => destruct (fst (handle e w))
           end.
  all: cbn [Demo.toggleAnnotationsButton Demo.set_label Demo.set_datasets].
  all: try (now right).
  all: rewrite K, F; exact L.
Qed.

Lemma page_step_dataset (p : Demo.Page) (e : Demo.PageEvent) :
  Demo.dataset_in_step p -> Demo.dataset_in_step (Demo.page_step p e).
Proof.
  intros D. unfold Demo.dataset_in_step, Demo.page_step in *.
  cbn [Demo.document Demo.annotator].
  destruct (listen_keeps_buttons
              (skipn (length (fired (Demo.annotator p)))
                 (fired (step (Demo.annotator p) (Demo.to_annotator e))))
              (Demo.document p)) as [_ [A [B C]]].
  pose proof (step_selection (Demo.annotator p) (Demo.to_annotator e)) as S.
  pose proof (handle_returns (Demo.annotator p) (Demo.to_annotator e)
                (dataset_in_step_encodable p D) (to_annotator_encodable e))
    as R.
  destruct e;
    cbn [Demo.then_in_document Demo.set_label Demo.set_datasets
         Demo.sstButton Demo.sstErrorButton Demo.landCoverButton
         Demo.to_annotator] in *.
  all: try match goal with
           | R : True -> _ |- _ => rewrite (R I)
           end.
  all: try match goal with
           | |- context [fst (handle ?e ?w)] => destruct (fst (handle e w))
           end.
  all: cbn [Demo.set_label Demo.set_datasets Demo.sstButton
            Demo.sstErrorButton Demo.landCoverButton].
  all: pose proof (f_equal fst S) as Su; pose proof (f_equal snd S) as Sv;
    cbn [fst snd] in Su, Sv; rewrite Su, Sv, ?A, ?B, ?C; try exact D.
  - right; left. now repeat split.
  - right; right; left. now repeat split.
  - right; right; right. now repeat split.
Qed.

Lemma listen_session (heard : list Fired) (d : Demo.Document) :
  (let s := fold_left Demo.listen heard d in
   (exists b, Demo.loginButton s = Some b
              /\ Demo.logoutButton s = Some (negb b)
              /\ Demo.greeting s <> None))
  \/ fold_left Demo.listen heard d = d.
Proof.
  revert d. induction heard as [|f heard IH]; intros d; [now right|].
  cbn [fold_left]. destruct (IH (Demo.listen d f)) as [S|E]; [now left|].
  left. rewrite E. destruct f; cbn.
  - exists true. now repeat split.
  - exists false. now repeat split.
Qed.

Lemma page_step_session (p : Demo.Page) (e : Demo.PageEvent) :
  Demo.session_in_step p -> Demo.session_in_step (Demo.page_step p e).
Proof.
  intros S. unfold Demo.session_in_step, Demo.page_step in *.
  cbn [Demo.document Demo.annotator].
  destruct (listen_session
              (skipn (length (fired (Demo.annotator p)))
                 (fired (step (Demo.annotator p) (Demo.to_annotator e))))
              (Demo.document p)) as [New|Same].
  - right.
    destruct e; destruct (fst (handle _ (Demo.annotator p))); exact New.
  - rewrite Same.
    destruct e; destruct (fst (handle _ (Demo.annotator p))); exact S.
Qed.

End DemoFacts.

Section DemoRuns.
Context {N : Type} `{Number N}.

Lemma page_run_keeps (I : Demo.Page (N:=N) -> Prop) :
  (forall p e, I p -> I (Demo.page_step p e)) ->
  forall es p, I p -> I (Demo.page_run es p).
Proof.
  intros Step es. induction es as [|e es IH]; intros p P; [exact P|].
  apply IH, Step, P.
Qed.

Lemma loaded_fresh (hashToken : value) (storage : JSO.t)
  (jso : option JSO.t) :
  let a := self (Demo.annotator (Demo.loaded (N:=N) hashToken storage jso)) in
  annotationsOn a = false /\ datasetUri a = undefined
  /\ datasetVar a = undefined.
Proof.
  unfold Demo.loaded, new_CharmeAnnotator. cbn.
  now destruct (JSO.checkToken (JSO.callback hashToken storage)).
Qed.

(** X15: on the demo page, after any sequence of events, the label of the
    toggle button is the one of the HTML or agrees with the visibility flag:
    'Hide annotations' when on, 'Show annotations' when off. *)
Theorem toggle_label_follows_visibility (hashToken : value)
  (storage : JSO.t) (jso : option JSO.t) (es : list (Demo.PageEvent (N:=N))) :
  let p := Demo.page_run es (Demo.loaded hashToken storage jso) in
  Demo.toggleAnnotationsButton (Demo.document p) = None
  \/ Demo.toggleAnnotationsButton (Demo.document p)
     = Some (if annotationsOn (self (Demo.annotator p))
             then "Hide annotations" else "Show annotations").
Proof.
  apply (page_run_keeps
           (fun p => Demo.dataset_in_step p /\ Demo.label_in_step p)).
  - intros p e [D L].
    split; [now apply page_step_dataset | now apply page_step_label].
  - destruct (loaded_fresh hashToken storage jso) as [_ [U V]].
    split; [left; now repeat split | now left].
Qed.

(** X16: on the demo page, after any sequence of events, either no dataset
    is selected and the dataset buttons are as in the HTML, or exactly one
    dataset button is disabled and the annotator's selection is that button's
    dataset and variable. *)
Theorem disabled_dataset_button_is_selection (hashToken : value)
  (storage : JSO.t) (jso : option JSO.t) (es : list (Demo.PageEvent (N:=N))) :
  Demo.dataset_in_step (Demo.page_run es (Demo.loaded hashToken storage jso)).
Proof.
  apply (page_run_keeps Demo.dataset_in_step page_step_dataset).
  destruct (loaded_fresh hashToken storage jso) as [_ [U V]].
  left. now repeat split.
Qed.

(** X17: on the demo page, after any sequence of events, the login and
    logout buttons and the greeting are as in the HTML, or the greeting is
    written and exactly one of the two buttons is disabled. *)
Theorem one_session_button_disabled (hashToken : value)
  (storage : JSO.t) (jso : option JSO.t) (es : list (Demo.PageEvent (N:=N))) :
  Demo.session_in_step (Demo.page_run es (Demo.loaded hashToken storage jso)).
Proof.
  apply (page_run_keeps Demo.session_in_step page_step_session).
  left. now repeat split.
Qed.

(** X18: when the user details arrive, the page writes the greeting,
    disables the login button and enables the logout button, and the token
    is not consulted or changed: this also happens after a logout. *)
Theorem late_user_details_greet (p : Demo.Page (N:=N)) (id : nat)
  (r : Request) (userdetails : UserDetails) :
  in_flight id (Demo.annotator p) = Some r ->
  continuation r = ThenFireLogin ->
  let p' := Demo.page_step p (Demo.resolved id (UserInfo userdetails)) in
  Demo.document p' = Demo.on_login userdetails (Demo.document p)
  /\ fired (Demo.annotator p')
     = (fired (Demo.annotator p) ++ [login userdetails])%list
  /\ token (self (Demo.annotator p')) = token (self (Demo.annotator p))
  /\ charmeOAuth (self (Demo.annotator p'))
     = charmeOAuth (self (Demo.annotator p)).
Proof.
  intros Hr Hk. unfold Demo.page_step.
  cbn [Demo.annotator Demo.document Demo.to_annotator Demo.then_in_document].
  assert (step (Demo.annotator p) (Resolved id (UserInfo userdetails))
          = push_fired (login userdetails)
              (mark_settled id (Demo.annotator p))) as ->.
  { unfold step, exec, handle, resolve, userdetails_of, fire, bind, gets,
      modify. cbn. now rewrite Hr, Hk. }
  cbn [fired push_fired mark_settled]. rewrite skipn_length_app.
  destruct (fst (handle (Resolved id (UserInfo userdetails))
                   (Demo.annotator p))); now repeat split.
Qed.

End DemoRuns.

(** ** The first page script *)

Section PrototypeFacts.
Context {N : Type} `{Number N}.

Lemma prototype_toggle_once (p : Prototype.Page (N:=N)) (m : LeafletMap N)
  (query : string) :
  Prototype.map p = Some m ->
  getQuery (Some m) (Some m) = Normal query ->
  Prototype.toggleAnnotations p
  = (Normal tt,
     Prototype.mkPage (Some m) (Prototype.onMap p) (Prototype.featureGroup p)
       (Some []) (Prototype.body p ++ [[]])
       (Prototype.requests p
        ++ [Prototype.mkRequest "get" Prototype.strabon
              (Prototype.Fields [("query", query); ("format", "GeoJSON")])
              [("Accept", "application/json")]])).
Proof.
  intros M Q. unfold Prototype.toggleAnnotations, Prototype.generateForm.
  rewrite M, Q. reflexivity.
Qed.

(** X19: before the page has loaded, [toggleAnnotations] of charme.js
    throws and changes nothing.  Afterwards n calls send n identical queries
    for the viewport and append n forms without any field to the body, and
    no layer is taken off the map. *)
Theorem prototype_toggle_asks_again (p : Prototype.Page (N:=N)) :
  match Prototype.map p with
  | None =>
      Prototype.toggleAnnotations p
      = (Thrown (TypeError "Cannot read properties of undefined"), p)
  | Some m =>
      exists query,
        getQuery (Some m) (Some m) = Normal query
        /\ forall n,
            let p' := Nat.iter n
                        (fun p => snd (Prototype.toggleAnnotations p)) p in
            Prototype.requests p'
            = (Prototype.requests p
               ++ repeat
                    (Prototype.mkRequest "get" Prototype.strabon
                       (Prototype.Fields
                          [("query", query); ("format", "GeoJSON")])
                       [("Accept", "application/json")]) n)%list
            /\ Prototype.body p' = (Prototype.body p ++ repeat [] n)%list
            /\ Prototype.onMap p' = Prototype.onMap p
            /\ Prototype.featureGroup p' = Prototype.featureGroup p
            /\ Prototype.map p' = Some m
  end.
Proof.
  destruct (Prototype.map p) as [m|] eqn:M.
  - destruct (getQuery (Some m) (Some m)) as [query|] eqn:Q;
      [|discriminate Q].
    exists query. split; [reflexivity|].
    induction n as [|n IH].
    + cbn. rewrite !app_nil_r. now repeat split.
    + cbv zeta in IH |- *. rewrite Nat.iter_succ.
      destruct IH as [R [B [O [G M']]]].
      rewrite (prototype_toggle_once _ m query M' Q).
      cbn [snd Prototype.requests Prototype.body Prototype.onMap
           Prototype.featureGroup Prototype.map].
      rewrite R, B, O, G, <- !app_assoc, <- !repeat_cons.
      now repeat split.
  - unfold Prototype.toggleAnnotations. rewrite M. reflexivity.
Qed.

(** X20: a reply to the query of charme.js adds one layer with one overlay
    per feature, in order and at the feature's geometry; an overlay has a
    popup exactly when its feature has a non-empty text. *)
Theorem prototype_reply_adds_a_layer (resp : list (Prototype.Feature (N:=N)))
  (p : Prototype.Page) :
  exists layer,
    Prototype.onMap (Prototype.rendered resp p)
    = (Prototype.onMap p ++ [layer])%list
    /\ List.map Prototype.shape layer = List.map Prototype.geometry resp
    /\ List.map (fun o => match Prototype.popup o with
                          | Some _ => true
                          | None => false
                          end) layer
       = List.map (fun f => match Prototype.properties f with
                            | Some props => truthy (Prototype.text props)
                            | None => false
                            end) resp
    /\ Prototype.requests (Prototype.rendered resp p) = Prototype.requests p.
Proof.
  exists (List.map Prototype.onEachFeature resp).
  split; [reflexivity|]. rewrite !map_map. repeat split.
  - apply map_ext. intros f. unfold Prototype.onEachFeature.
    destruct (Prototype.properties f) as [props|]; [|reflexivity].
    now destruct (truthy (Prototype.text props)).
  - apply map_ext. intros f. unfold Prototype.onEachFeature.
    destruct (Prototype.properties f) as [props|]; [|reflexivity].
    now destruct (truthy (Prototype.text props)).
Qed.

(** X21: the submit handler of charme.js either posts the document for the
    fixed dataset with the fixed token and removes the drawn layer, or throws
    (the encoder failed) and leaves the page as it was. *)
Theorem prototype_submit_is_all_or_nothing (now name email authorUri
  comment : string) (drawEvent : Stamped N) (p : Prototype.Page) :
  match Prototype.submit_click now name email authorUri comment drawEvent p
  with
  | (Normal _, p') =>
      (exists location,
          getLocationString (layer drawEvent) = Normal location
          /\ Prototype.requests p'
             = (Prototype.requests p
                ++ [Prototype.mkRequest "post"
                      "http://192.168.56.102/insert/annotation"
                      (Prototype.Text
                         (getTurtle now name email authorUri
                            "http://dataset/uri" "selectedVar" location
                            comment))
                      [("Content-Type", "text/turtle");
                       ("Authorization",
                        "Token d4b0cf754c6bfe5208182325d96c1d5dec5964ba")]])%list)
      /\ find (fun x => stamp x =? stamp drawEvent)%nat
           (Prototype.featureGroup p') = None
      /\ Prototype.onMap p' = Prototype.onMap p
  | (Thrown _, p') => p' = p
  end.
Proof.
  unfold Prototype.submit_click.
  destruct (getLocationString (layer drawEvent)) as [location|err];
    [|reflexivity].
  cbn. repeat split; [|apply find_removeLayer].
  exists location. split; reflexivity.
Qed.

End PrototypeFacts.

(** ** The default popup *)

(** X14: the default popup is the comment, the time line, and the author's
    name; the name is there only when first name and surname are both
    present; with an email the link is opened and closed around the name and
    nothing else, also when the name is missing. *)
Theorem defaultFormat_link_wraps_the_name (p : Properties) :
  let heading :=
    (if truthy (text p) then ToString (text p) ++ "<br><br>" else "")
    ++ (if truthy (time p)
        then "Annotated at " ++ ToString (time p) ++ " by:<br>" else "") in
  let author :=
    if truthy (firstname p) && truthy (surname p)
    then "<b>" ++ ToString (firstname p) ++ " " ++ ToString (surname p)
         ++ "</b><br>"
    else "" in
  defaultFormat p
  = heading
    ++ (if truthy (email p)
        then "<a href=" ++ dq ++ "mailto:" ++ ToString (email p) ++ dq ++ ">"
             ++ author ++ "</a>"
        else author).
Proof.
  unfold defaultFormat.
  destruct (truthy (text p)), (truthy (time p)), (truthy (email p)),
    (truthy (firstname p) && truthy (surname p));
    cbv zeta; text_eq; rewrite ?append_nil_r; reflexivity.
Qed.

(** ** Concrete runs *)

(** On a rectangle both encoders give the same closed ring. *)
Lemma encoders_agree_on_equal_latitudes_witness :
  getLocationString (Polyline rectangle)
  = Normal (Some "POLYGON ((10 0, 10 10, 0 10, 0 0, 10 0))")
  /\ getLocationString (Polyline rectangle)
     = _getLocationString (Polyline rectangle).
Proof.
  split; [reflexivity|].
  exact (encoders_agree_on_equal_latitudes (Polyline rectangle) eq_refl).
Defined.

(** A member with annotations on has submitted a comment; the node answers
    the post with an empty body: the refresh sends a second query. *)
Lemma insert_reply_refreshes_witness :
  in_flight 2 just_submitted
  = Some (insert_request (self (member None))
            (Some "d4b0cf754c6bfe5208182325d96c1d5dec5964ba")
            (Some "POINT (-3 55)") "hot")
  /\ annotationsOn (self just_submitted) = true
  /\ selection_encodable (self just_submitted) = true
  /\ exists w',
      resolve 2 NoContent just_submitted = (Normal tt, w')
      /\ settled w' = [2]
      /\ annotationsOn (self w') = true
      /\ List.map continuation (requests w')
         = [ThenFireLogin; ThenRender; ThenRefresh; ThenRender].
Proof.
  assert (in_flight 2 just_submitted
          = Some (insert_request (self (member None))
                    (Some "d4b0cf754c6bfe5208182325d96c1d5dec5964ba")
                    (Some "POINT (-3 55)") "hot")) as Hr
    by (vm_compute; reflexivity).
  assert (annotationsOn (self just_submitted) = true) as On by reflexivity.
  assert (selection_encodable (self just_submitted) = true) as Enc
    by reflexivity.
  split; [exact Hr|]. split; [exact On|]. split; [exact Enc|].
  destruct (insert_reply_refreshes just_submitted 2 _ NoContent Hr eq_refl)
    as [[w' [E [S C]]] _].
  rewrite On, Enc in C. destruct C as [_ [F R]].
  exists w'. split; [exact E|]. split; [exact S|]. split; [exact F|].
  rewrite R. reflexivity.
Defined.

(** With annotations on and the sea-surface temperature selected, selecting
    the land cover keeps annotations on and a click on the button switches
    them off. *)
Lemma only_the_button_changes_visibility_witness :
  let w := run [Click_datasetButton cci "analysed_sst";
                Click_toggleAnnotationsButton] visitor in
  selection_encodable (self w) = true
  /\ selects_encodable (Click_datasetButton (N:=Z) lc "land_cover") = true
  /\ annotationsOn (self w) = true
  /\ annotationsOn (self (step w (Click_datasetButton lc "land_cover"))) = true
  /\ annotationsOn (self (step w Click_toggleAnnotationsButton)) = false.
Proof.
  intros w.
  assert (selection_encodable (self w) = true) as Enc by reflexivity.
  assert (selects_encodable (Click_datasetButton (N:=Z) lc "land_cover")
          = true) as Sel by reflexivity.
  split; [exact Enc|]. split; [exact Sel|]. split; [reflexivity|].
  split.
  - exact (only_the_button_changes_visibility w
             (Click_datasetButton lc "land_cover") Enc Sel).
  - exact (only_the_button_changes_visibility w
             Click_toggleAnnotationsButton Enc eq_refl).
Defined.

(** With annotations on, a click on the land-cover button leaves them on,
    the group empty and the query for the land cover as the last request. *)
Lemma dataset_button_keeps_visibility_witness :
  let w := run [Click_toggleAnnotationsButton;
                Resolved 0 (FeatureCollection [hot])] visitor in
  Demo.to_annotator (N:=Z) Demo.click_landCoverButton
  = Click_datasetButton lc "land_cover"
  /\ annotationsGroup (self w) = [[hot_overlay]]
  /\ exists w',
      selectDataset lc "land_cover" w = (Normal tt, w')
      /\ annotationsOn (self w') = true
      /\ annotationsGroup (self w') = []
      /\ List.map url (requests w')
         = [url (query_request (self w)); url (query_request (self w'))]
      /\ datasetUri (self w') = Some lc.
Proof.
  intros w.
  assert (Demo.to_annotator (N:=Z) Demo.click_landCoverButton
          = Click_datasetButton lc "land_cover") as Button by reflexivity.
  split; [exact Button|]. split; [reflexivity|].
  destruct (dataset_button_keeps_visibility w Demo.click_landCoverButton
              lc "land_cover" Button) as [w' [E [U [_ [_ [F [_ G]]]]]]].
  assert (annotationsOn (self w) = true) as On by reflexivity.
  rewrite On in F, G. destruct G as [G R].
  exists w'. split; [exact E|]. split; [exact F|]. split; [exact G|].
  split; [|exact U]. rewrite R. reflexivity.
Defined.

(** A member submits a comment on a marker, on a page without [jso]. *)
Lemma submit_is_all_or_nothing_witness :
  jso (member None) = None
  /\ fst (annoSubmit_click drawn_marker "hot" (member None)) = Normal tt
  /\ requests (exec (annoSubmit_click drawn_marker "hot") (member None))
     = (requests (member None)
        ++ [insert_request (self (member None))
              (Some "d4b0cf754c6bfe5208182325d96c1d5dec5964ba")
              (Some "POINT (-3 55)") "hot"])%list.
Proof.
  assert (jso (member None) = None) as Hjso by reflexivity.
  pose proof (submit_is_all_or_nothing (member None) drawn_marker "hot" Hjso)
    as T.
  assert (annoSubmit_click drawn_marker "hot" (member None)
          = (Normal tt,
             exec (annoSubmit_click drawn_marker "hot") (member None))) as E
    by reflexivity.
  rewrite E in T. destruct T as [_ [[location [L R]] _]].
  assert (_getLocationString (layer drawn_marker)
          = Normal (Some "POINT (-3 55)")) as Hloc by reflexivity.
  rewrite Hloc in L. injection L as <-.
  split; [exact Hjso|]. split; [now rewrite E|]. exact R.
Defined.

(** Two runs of the submit handler for the same marker on a member's page:
    after the user-details lookup, the same post twice. *)
Lemma submit_handler_posts_again_witness :
  _getLocationString (layer drawn_marker) = Normal (Some "POINT (-3 55)")
  /\ truthy (token (self (member None))) = true
  /\ exists w2,
      annoSubmit_click drawn_marker "hot"
        (exec (annoSubmit_click drawn_marker "hot") (member None))
      = (Normal tt, w2)
      /\ List.map continuation (requests w2)
         = [ThenFireLogin; ThenRefresh; ThenRefresh]
      /\ nth_error (requests w2) 1 = nth_error (requests w2) 2
      /\ requests (run [DrawCreated drawn_marker; Click_annoSubmit 1 "hot";
                        Click_annoSubmit_stale drawn_marker "hot"]
                     (member None))
         = requests w2.
Proof.
  assert (_getLocationString (layer drawn_marker)
          = Normal (Some "POINT (-3 55)")) as Hloc by reflexivity.
  assert (truthy (token (self (member None))) = true) as Htok by reflexivity.
  split; [exact Hloc|]. split; [exact Htok|].
  destruct (submit_handler_posts_again (member None) drawn_marker "hot"
              (Some "POINT (-3 55)") Hloc Htok) as [_ [_ [w2 [E R]]]].
  exists w2. split; [exact E|]. rewrite R. repeat split.
Defined.

(** The node answers the user-details lookup with an error object that has
    none of the user properties: 'login' fires all the same, and the page
    greets a user whose names are undefined. *)
Lemma error_body_fires_login :
  let p := Demo.page_step
             (Demo.loaded (N:=Z) None (JSO.mk (Some "expired")) None)
             (Demo.resolved 0
                (UserInfo (mkUser undefined undefined undefined))) in
  logins (fired (Demo.annotator p)) = 1
  /\ Demo.greeting (Demo.document p)
     = Some "Logged in as user undefined(undefined undefined)"
  /\ Demo.loginButton (Demo.document p) = Some true
  /\ Demo.logoutButton (Demo.document p) = Some false.
Proof. vm_compute. repeat split. Qed.

Lemma nothing_posted_without_token_and_jso_witness :
  truthy (token (self logged_out)) = false
  /\ jso logged_out = None
  /\ inserts (requests (run [Click_annoSubmit 1 "hot"] logged_out)) = [].
Proof.
  split; [reflexivity|]. split; [reflexivity|].
  destruct (nothing_posted_without_token_and_jso logged_out
              [Click_annoSubmit 1 "hot"] eq_refl eq_refl) as [_ I].
  exact I.
Defined.

Lemma draw_handler_stays_wired_witness :
  drawCreatedListener (map (self (member None))) = true
  /\ drawControlShown (map (self (run [Click_logoutButton] (member None))))
     = false
  /\ existsb (fun x => stamp x =? 1)%nat
       (featureGroup
          (step (run [Click_logoutButton] (member None))
             (DrawCreated drawn_marker))) = true.
Proof.
  split; [reflexivity|]. split; [reflexivity|].
  destruct (draw_handler_stays_wired (member None) [Click_logoutButton])
    as [_ [_ Wired]].
  exact (Wired eq_refl drawn_marker).
Defined.

(** The user details arrive after the logout: the page greets Alice and
    offers the logout button while the annotator has no token. *)
Lemma late_user_details_greet_witness :
  token (self (Demo.annotator demo_logged_out)) = undefined
  /\ Demo.logoutButton (Demo.document demo_logged_out) = Some true
  /\ let p' := Demo.page_step demo_logged_out
                 (Demo.resolved 0 (UserInfo alice)) in
     Demo.greeting (Demo.document p')
     = Some "Logged in as user alice(Alice Liddell)"
     /\ Demo.logoutButton (Demo.document p') = Some false
     /\ token (self (Demo.annotator p')) = undefined.
Proof.
  split; [reflexivity|]. split; [reflexivity|].
  assert (in_flight 0 (Demo.annotator demo_logged_out)
          = Some (mkRequest (Demo.charmeUrl ++ "token/userinfo") None
                    [("Authorization",
                      "Token d4b0cf754c6bfe5208182325d96c1d5dec5964ba")]
                    None ThenFireLogin)) as Hr
    by (vm_compute; reflexivity).
  destruct (late_user_details_greet demo_logged_out 0 _ alice Hr eq_refl)
    as [D [_ [T _]]].
  cbv zeta. rewrite D, T. repeat split.
Defined.

Section Refresh.
Context {N : Type} `{Number N}.

(** X22: two calls of [toggleAnnotations] in a row, from either state, with
    a selection that can be URL-encoded, are a refresh: the visibility flag
    is what it was, the annotations group is empty, and exactly one query,
    for the current selection, has been sent.  With a selection that cannot
    be encoded they send nothing and leave annotations off, the group
    emptied if they were on.  In both cases no pending request is
    withdrawn. *)
Theorem two_toggles_refresh (w : World N) :
  let w2 := exec toggleAnnotations (exec toggleAnnotations w) in
  settled w2 = settled w
  /\ toggleCalls w2 = S (S (toggleCalls w))
  /\ if selection_encodable (self w)
     then annotationsOn (self w2) = annotationsOn (self w)
          /\ annotationsGroup (self w2) = []
          /\ requests w2 = (requests w ++ [query_request (self w)])%list
     else annotationsOn (self w2) = false
          /\ requests w2 = requests w
          /\ annotationsGroup (self w2)
             = if annotationsOn (self w) then []
               else annotationsGroup (self w).
Proof.
  unfold exec.
  destruct (annotationsOn (self w)) eqn:On,
    (selection_encodable (self w)) eqn:Enc.
  - rewrite (toggleAnnotations_on w On). cbn [snd].
    rewrite toggleAnnotations_off by (reflexivity || exact Enc).
    now repeat split.
  - rewrite (toggleAnnotations_on w On). cbn [snd].
    rewrite toggleAnnotations_throws by (reflexivity || exact Enc).
    now repeat split.
  - rewrite (toggleAnnotations_off w On Enc). cbn [snd].
    rewrite toggleAnnotations_on by reflexivity.
    now repeat split.
  - rewrite (toggleAnnotations_throws w On Enc). cbn [snd].
    rewrite toggleAnnotations_throws by (reflexivity || exact Enc || exact On).
    now repeat split.
Qed.

End Refresh.
